(** * DuWebKit template compiler: a shallow embedding of [scripts/compiler.py]

    The development follows the source file top to bottom: the Python string
    primitives the compiler relies on, the configuration globals ([Lang],
    [Dir], [App]), the external collaborators (regular expressions, Markdown,
    minifiers, structured-data renderers), the [Compiler] object as explicit
    state, and then the methods [compile_css], [compile_js],
    [compile_publication], [compile_art], [compile], [parse_markdown] and
    [parse_variable]. *)

From Stdlib Require Import String Ascii List Arith Lia Bool.
From stdpp Require Import base option strings gmap.

Local Open Scope string_scope.

#[local] Arguments String.append !_ _ / : simpl nomatch.

(** ** Python [str] primitives *)

Module Py.

(** [s.startswith(p)] *)
Fixpoint startswith (p s : string) : bool :=
  match p, s with
  | EmptyString, _ => true
  | String a p', String b s' => if Ascii.eqb a b then startswith p' s' else false
  | String _ _, EmptyString => false
  end.

(** [s.find(sub) != -1] *)
Fixpoint contains (sub s : string) : bool :=
  if startswith sub s then true
  else match s with
       | EmptyString => false
       | String _ s' => contains sub s'
       end.

(** [s[:n]] for a non-negative [n] *)
Fixpoint take (n : nat) (s : string) : string :=
  match n, s with
  | S k, String a s' => String a (take k s')
  | _, _ => EmptyString
  end.

(** [s[n:]] for a non-negative [n] *)
Fixpoint drop (n : nat) (s : string) : string :=
  match n, s with
  | S k, String _ s' => drop k s'
  | _, _ => s
  end.

(** [s[-n:]]: the last [n] characters, the whole string when it is shorter. *)
Definition last_n (n : nat) (s : string) : string :=
  drop (String.length s - n) s.

(** [s[:-n]] for [n > 0]: everything but the last [n] characters. *)
Definition drop_last (n : nat) (s : string) : string :=
  take (String.length s - n) s.

(** [s[i:-j]] for [j > 0] *)
Definition slice (i j : nat) (s : string) : string :=
  drop i (drop_last j s).

(** [s.replace(old, new)] for a non-empty [old]: the occurrences are found
    left to right and do not overlap.  [skip] counts the characters of the
    occurrence being replaced that are still to be consumed. *)
Fixpoint replace_from (old new s : string) (skip : nat) : string :=
  match s with
  | EmptyString => EmptyString
  | String c s' =>
      match skip with
      | S k => replace_from old new s' k
      | 0 =>
          if startswith old s
          then new +:+ replace_from old new s' (String.length old - 1)
          else String c (replace_from old new s' 0)
      end
  end.

(** [s.replace(old, new)] for an empty [old]: [new] goes before every
    character and at the end. *)
Fixpoint interleave (new s : string) : string :=
  match s with
  | EmptyString => new
  | String c s' => new +:+ String c (interleave new s')
  end.

Definition replace (old new s : string) : string :=
  match old with
  | EmptyString => interleave new s
  | String _ _ => replace_from old new s 0
  end.

Fixpoint lstrip (c : ascii) (s : string) : string :=
  match s with
  | String a s' => if Ascii.eqb a c then lstrip c s' else s
  | EmptyString => EmptyString
  end.

Fixpoint rstrip (c : ascii) (s : string) : string :=
  match s with
  | EmptyString => EmptyString
  | String a s' =>
      match rstrip c s' with
      | EmptyString => if Ascii.eqb a c then EmptyString else String a EmptyString
      | r => String a r
      end
  end.

(** [s.strip(c)] for a one-character [c] *)
Definition strip (c : ascii) (s : string) : string := rstrip c (lstrip c s).

(** [s.split(c)] for a one-character separator: never the empty list. *)
Fixpoint split (c : ascii) (s : string) : list string :=
  match s with
  | EmptyString => [EmptyString]
  | String a s' =>
      if Ascii.eqb a c then EmptyString :: split c s'
      else match split c s' with
           | h :: t => String a h :: t
           | [] => [String a EmptyString]
           end
  end.

Definition newline : ascii := Ascii.ascii_of_nat 10.
Definition dquote : ascii := Ascii.ascii_of_nat 34.
Definition backslash : ascii := Ascii.ascii_of_nat 92.

(** [f.readlines()] on a file holding [s]: every line keeps its newline. *)
Fixpoint readlines (s : string) : list string :=
  match s with
  | EmptyString => []
  | String a s' =>
      if Ascii.eqb a newline then String a EmptyString :: readlines s'
      else match readlines s' with
           | h :: t => String a h :: t
           | [] => [String a EmptyString]
           end
  end.

(** [''.join(lines)] *)
Definition join (lines : list string) : string :=
  fold_right String.append EmptyString lines.

(** Number of occurrences of the character [c] in [s]. *)
Fixpoint count (c : ascii) (s : string) : nat :=
  match s with
  | EmptyString => 0
  | String a s' => (if Ascii.eqb a c then 1 else 0) + count c s'
  end.

End Py.

(** ** Globals: [Lang], [Dir], [App] *)

(** A catalog maps a variable name to its text; values that are not strings
    in the source (the date fields) are held as their [str()]. *)
Abbreviation catalog := (gmap string string).

Record Config := {
  lang_current : catalog;   (* Lang.current *)
  lang_en : catalog;        (* Lang.en *)
  lang_cn : catalog;        (* Lang.cn *)
  dir_templates : string;   (* Dir.templates *)
  dir_builds : string;      (* Dir.builds *)
  dir_css : string;         (* Dir.css *)
  dir_js : string;          (* Dir.js *)
  dir_images : string;      (* Dir.images *)
  minimize_css : bool;      (* App.minimize_css *)
  minimize_js : bool;       (* App.minimize_js *)
  minimize_html : bool;     (* App.minimize_html *)
  debug_html : bool         (* App.debug_html *)
}.

(** ** External collaborators

    The compiled patterns of [scripts.utils.regex.Regex] are used through
    [search] only: a pattern is the function from a line to its leftmost
    match, given by the groups the compiler reads.  [VARIABLE] gives
    [group(0)] and [group(1)]. *)

Record Externals := {
  ASSIGN : string -> option (string * string);
  INCLUDE : string -> option string;
  CSS : string -> option string;
  JS : string -> option string;
  IMAGE : string -> option (string * string);
  PUBLICATION : string -> option string;
  ART : string -> option string;
  VARIABLE : string -> option (string * string);
  markdown : string -> string;                          (* markdown.markdown *)
  csscompress : string -> string;                       (* csscompressor.compress *)
  jsmin : string -> string;                             (* jsmin.jsmin *)
  htmlminify : string -> string;                        (* htmlmin.minify *)
  get_image : string -> string -> string;               (* DuMark.get_image *)
  papers_fill : list string -> list string -> string;   (* Data.papers.fill_templates *)
  arts_fill : list string -> list string -> string;     (* Data.arts.fill_templates *)
  path_join : string -> string -> string                (* os.path.join *)
}.

(** ** The [Compiler] object, the file system and the observable trace *)

Inductive level := Info | Warning | Error.

Inductive collection := Papers | Arts.

Inductive event :=
| EvRead (path : string)
| EvWrite (path content : string)
| EvLog (lvl : level) (msg : string)
| EvPrint (text : string)
| EvFill (c : collection) (conditions template : list string).

Record state := {
  assign_dict : gmap string string;   (* self._assign_dict *)
  built_dict : gset string;           (* self.built_dict *)
  built_html : gmap string string;    (* self.built_html *)
  files : gmap string string;         (* the file system: path to content *)
  trace : list event                  (* reads, writes, log records, newest last *)
}.

(** [Compiler.__init__] leaves the three containers empty. *)
Definition init (fs : gmap string string) : state :=
  {| assign_dict := ∅; built_dict := ∅; built_html := ∅; files := fs; trace := [] |}.

Inductive exn :=
| FileNotFoundError (path : string)
| IndexError.

(** A call returns, raises (the run is aborted, the state is what it was at
    the raise) or exhausts the fuel that bounds recursion and loops. *)
Inductive result (A : Type) :=
| Ok (a : A) (s : state)
| Raise (e : exn) (s : state)
| OutOfFuel.
Arguments Ok {A} a s.
Arguments Raise {A} e s.
Arguments OutOfFuel {A}.

Definition M (A : Type) : Type := state -> result A.

Definition ret {A} (a : A) : M A := fun s => Ok a s.

Definition bind {A B} (m : M A) (k : A -> M B) : M B :=
  fun s => match m s with
           | Ok a s' => k a s'
           | Raise e s' => Raise e s'
           | OutOfFuel => OutOfFuel
           end.

Notation "'let*' x ':=' m 'in' k" := (bind m (fun x => k))
  (at level 10, x name, m at level 100, k at level 200).
Notation "m ';;' k" := (bind m (fun _ => k))
  (at level 100, k at level 200, right associativity).

Definition raise {A} (e : exn) : M A := fun s => Raise e s.

(** The state after the events [evs] have been recorded. *)
Definition logged (s : state) (evs : list event) : state :=
  {| assign_dict := assign_dict s; built_dict := built_dict s;
     built_html := built_html s; files := files s;
     trace := trace s ++ evs |}.

Definition emit (e : event) : M unit := fun s => Ok tt (logged s [e]).

Definition log (lvl : level) (msg : string) : M unit := emit (EvLog lvl msg).

(** [open(path, 'r')] followed by [f.readlines()] *)
Definition read_lines (path : string) : M (list string) :=
  fun s => match files s !! path with
           | Some content => (emit (EvRead path) ;; ret (Py.readlines content)) s
           | None => Raise (FileNotFoundError path) s
           end.

(** [open(path, 'w')] followed by [o.write(content)] *)
Definition write_file (path content : string) : M unit :=
  fun s => Ok tt {| assign_dict := assign_dict s; built_dict := built_dict s;
                    built_html := built_html s;
                    files := <[path := content]> (files s);
                    trace := trace s ++ [EvWrite path content] |}.

Definition set_assign (lhs rhs : string) : M unit :=
  fun s => Ok tt {| assign_dict := <[lhs := rhs]> (assign_dict s);
                    built_dict := built_dict s; built_html := built_html s;
                    files := files s; trace := trace s |}.

Definition add_built (name : string) : M unit :=
  fun s => Ok tt {| assign_dict := assign_dict s;
                    built_dict := {[name]} ∪ built_dict s;
                    built_html := built_html s; files := files s; trace := trace s |}.

Definition set_html (name html : string) : M unit :=
  fun s => Ok tt {| assign_dict := assign_dict s; built_dict := built_dict s;
                    built_html := <[name := html]> (built_html s);
                    files := files s; trace := trace s |}.

(** The first statement of [parse_markdown]: [str(text)] with the double
    quotes at both ends stripped and every pair of backslashes replaced by a
    line break; this is what goes to the Markdown renderer. *)
Definition markdown_input (text : string) : string :=
  Py.replace (String Py.backslash (String Py.backslash EmptyString)) "<br />"
             (Py.strip Py.dquote text).

(** ** The methods of [Compiler] *)

Section Methods.

Variable X : Externals.
Variable C : Config.

(** [os.path.join(a, b, c)] *)
Definition path_join3 (a b c : string) : string :=
  path_join X (path_join X a b) c.

(** [p.replace('\\', '/')] *)
Definition slashes (p : string) : string :=
  Py.replace (String Py.backslash EmptyString) "/" p.

(** *** [compile_css] *)
Definition compile_css (css_filename : string) : M bool :=
  fun s =>
    if decide (css_filename ∈ built_dict s) then Ok false s
    else
      (let css_fullpath := path_join3 (dir_templates C) (dir_css C) css_filename in
       let* lines := read_lines css_fullpath in
       let css_content := Py.join lines in
       let css_content :=
         if minimize_css C && negb (Py.contains ".min." css_filename)
         then csscompress X css_content else css_content in
       let output_filename := path_join3 (dir_builds C) (dir_css C) css_filename in
       write_file output_filename css_content ;;
       add_built css_filename ;;
       ret true) s.

(** *** [compile_js] *)
Definition compile_js (js_filename : string) : M bool :=
  fun s =>
    if decide (js_filename ∈ built_dict s) then Ok false s
    else
      (let js_fullpath := path_join3 (dir_templates C) (dir_js C) js_filename in
       let* lines := read_lines js_fullpath in
       let js_content := Py.join lines in
       let js_content :=
         if minimize_js C && negb (Py.contains ".min." js_filename)
         then jsmin X js_content else js_content in
       let output_filename := path_join3 (dir_builds C) (dir_js C) js_filename in
       write_file output_filename js_content ;;
       add_built js_filename ;;
       ret true) s.

(** [fill_templates] of [Data.papers] or [Data.arts], recorded in the trace. *)
Definition fill_templates (c : collection) (conditions template : list string)
  : M string :=
  emit (EvFill c conditions template) ;;
  ret (match c with
       | Papers => papers_fill X conditions template
       | Arts => arts_fill X conditions template
       end).

(** The body shared by [compile_publication] and [compile_art]; the loop
    over [conditions] rebinds its own variable only and changes nothing. *)
Definition compile_item (c : collection) (filename : string) : M string :=
  fun s =>
    match built_html s !! filename with
    | Some html => Ok html s
    | None =>
        (let* lines := read_lines filename in
         match lines with
         | [] => raise IndexError
         | first :: rest =>
             let conditions := Py.split ","%char (Py.slice 5 5 first) in
             fill_templates c conditions rest
         end) s
    end.

(** *** [compile_publication] *)
Definition compile_publication (pub_filename : string) : M string :=
  compile_item Papers pub_filename.

(** *** [compile_art] *)
Definition compile_art (art_filename : string) : M string :=
  compile_item Arts art_filename.

(** *** [parse_markdown] *)
Definition parse_markdown (text : string) : string :=
  let text := markdown_input text in
  let text := markdown X text in
  if Nat.ltb 7 (String.length text) && String.eqb (Py.take 3 text) "<p>"
     && String.eqb (Py.last_n 4 text) "</p>"
  then Py.slice 3 4 text
  else text.

(** The language-forcing step of [parse_variable]: the catalog and the name
    the lookup uses. *)
Definition force_language (variable : string) : catalog * string :=
  if String.eqb (Py.last_n 3 variable) "_cn"
  then (lang_cn C, Py.drop_last 3 variable)
  else if Py.contains "_en" variable
  then (lang_en C, Py.drop_last 3 variable)
  else (lang_current C, variable).

(** The redirection step of [parse_variable]. *)
Definition redirect (assign : gmap string string) (variable : string) : string :=
  match assign !! variable with
  | Some target => target
  | None => variable
  end.

(** *** [parse_variable]

    One unit of fuel is one iteration of the [while] loop. *)
Fixpoint parse_variable (fuel : nat) (line : string) : M string :=
  match VARIABLE X line with
  | None => ret line
  | Some (group0, group1) =>
      match fuel with
      | 0 => fun _ => OutOfFuel
      | S fuel' =>
          fun s =>
            let variable := redirect (assign_dict s) group1 in
            let (language, variable) := force_language variable in
            (match language !! variable with
             | None =>
                 log Warning ("Cannot find variable " +:+ variable +:+ " in current lang.") ;;
                 match lang_en C !! variable with
                 | None =>
                     log Error ("Cannot find English variable " +:+ variable +:+ ".") ;;
                     ret line
                 | Some value =>
                     parse_variable fuel'
                       (Py.replace group0 (parse_markdown value) line)
                 end
             | Some value =>
                 parse_variable fuel'
                   (Py.replace group0 (parse_markdown value) line)
             end) s
      end
  end.

(** *** [compile]: the body of the loop over the lines

    [self_compile] is the recursive call [self.compile(include_filename)];
    [fuel] bounds the loops of [parse_variable]. *)
Definition embeds (fuel : nat) (line : string) : M string :=
  let* line :=
    match IMAGE X line with
    | Some (g1, g2) =>
        let image_filename := slashes (path_join X (dir_images C) g1) in
        let* image_description := parse_variable fuel g2 in
        ret (markdown X (get_image X ("/" +:+ image_filename) image_description))
    | None => ret line
    end in
  let* line :=
    match PUBLICATION X line with
    | Some g1 => compile_publication (path_join X (dir_templates C) g1)
    | None => ret line
    end in
  match ART X line with
  | Some g1 => compile_art (path_join X (dir_templates C) g1)
  | None => ret line
  end.

Definition process_line (self_compile : string -> M string) (fuel : nat)
    (line html : string) : M string :=
  if negb (Py.contains "<!--" line) && negb (Py.contains "{{" line)
  then ret (html +:+ line)
  else
    match ASSIGN X line with
    | Some (lhs, rhs) => set_assign lhs rhs ;; ret html
    | None =>
    match INCLUDE X line with
    | Some include_filename =>
        log Info ("Including HTML: " +:+ include_filename) ;;
        let* include_content := self_compile include_filename in
        ret (html +:+ include_content)
    | None =>
    match CSS X line with
    | Some css_filename =>
        log Info ("Minimizing CSS: " +:+ css_filename) ;;
        compile_css css_filename ;;
        let css_filename := slashes (path_join X (dir_css C) css_filename) in
        ret (html +:+ "<link rel=" +:+ String Py.dquote "stylesheet"
                  +:+ String Py.dquote " href=" +:+ String Py.dquote "/"
                  +:+ css_filename +:+ String Py.dquote " />")
    | None =>
    match JS X line with
    | Some js_filename =>
        log Info ("~ Minimizing JS: " +:+ js_filename) ;;
        compile_js js_filename ;;
        let js_filename := slashes (path_join X (dir_js C) js_filename) in
        ret (html +:+ "<script src=" +:+ String Py.dquote "/" +:+ js_filename
                  +:+ String Py.dquote "></script>")
    | None =>
        let* line := embeds fuel line in
        let* line := parse_variable fuel line in
        ret (html +:+ line)
    end end end end.

Fixpoint process_lines (self_compile : string -> M string) (fuel : nat)
    (lines : list string) (html : string) : M string :=
  match lines with
  | [] => ret html
  | line :: rest =>
      let* html := process_line self_compile fuel line html in
      process_lines self_compile fuel rest html
  end.

(** *** [compile]

    One unit of fuel is one level of include nesting. *)
Fixpoint compile (fuel : nat) (filename : string) (write_to_file : bool)
  : M string :=
  match fuel with
  | 0 => fun _ => OutOfFuel
  | S fuel' =>
      fun s =>
        match built_html s !! filename with
        | Some html =>
            (log Info ("Reusing HTML: " +:+ filename) ;; ret html) s
        | None =>
            (let input_filename := path_join X (dir_templates C) filename in
             let output_filename := path_join X (dir_builds C) filename in
             let* lines := read_lines input_filename in
             let* html :=
               process_lines (fun f => compile fuel' f false) fuel' lines EmptyString in
             let* html :=
               if write_to_file then
                 let* html :=
                   if minimize_html C then
                     (if debug_html C then emit (EvPrint html) else ret tt) ;;
                     ret (htmlminify X html)
                   else ret html in
                 write_file output_filename html ;;
                 ret html
               else ret html in
             set_html filename html ;;
             ret html) s
        end
  end.

End Methods.

Arguments parse_markdown X text : simpl never.

(** ** A sample installation

    The modules [scripts.utils.regex], [scripts.utils.dumark] and
    [scripts.data] and the libraries are not part of the sources; the
    instances below are used where a statement is evaluated on concrete
    input. *)

Module Sample.

Definition is_word (c : ascii) : bool :=
  let n := Ascii.nat_of_ascii c in
  ((48 <=? n)%nat && (n <=? 57)%nat) || ((65 <=? n)%nat && (n <=? 90)%nat)
  || ((97 <=? n)%nat && (n <=? 122)%nat) || (n =? 95)%nat.

(** The longest prefix of word characters, and what follows it. *)
Fixpoint take_word (s : string) : string * string :=
  match s with
  | String c s' =>
      if is_word c then let (w, r) := take_word s' in (String c w, r)
      else (EmptyString, s)
  | EmptyString => (EmptyString, EmptyString)
  end.

Definition expect (lit s : string) : option string :=
  if Py.startswith lit s then Some (Py.drop (String.length lit) s) else None.

(** [pattern.search(s)]: the match at the leftmost position that has one. *)
Fixpoint search {A} (here : string -> option A) (s : string) : option A :=
  match here s with
  | Some m => Some m
  | None => match s with
            | EmptyString => None
            | String _ s' => search here s'
            end
  end.

Fixpoint take_until (post s : string) : option string :=
  if Py.startswith post s then Some EmptyString
  else match s with
       | EmptyString => None
       | String c s' => option_map (String c) (take_until post s')
       end.

Definition directive_here (keyword s : string) : option string :=
  match expect ("<!-- " +:+ keyword +:+ ": ") s with
  | Some r => take_until " -->" r
  | None => None
  end.

(** Modelled from the spec: the variable reference [{{name}}] of the
    directive syntax, [name] a non-empty run of word characters; the
    pattern [Regex.VARIABLE] is missing from the sources.  The result is
    [group(0)] and [group(1)]. *)
Definition variable_here (s : string) : option (string * string) :=
  match expect "{{" s with
  | Some r =>
      let (w, r') := take_word r in
      match w, expect "}}" r' with
      | String _ _, Some _ => Some ("{{" +:+ w +:+ "}}", w)
      | _, _ => None
      end
  | None => None
  end.

Definition variable_re : string -> option (string * string) := search variable_here.

(** Modelled from the spec: the assignment directive
    [<!-- alias = target -->]; the pattern [Regex.ASSIGN] is missing from
    the sources. *)
Definition assign_here (s : string) : option (string * string) :=
  match expect "<!-- " s with
  | Some r =>
      let (lhs, r) := take_word r in
      match lhs, expect " = " r with
      | String _ _, Some r =>
          let (rhs, r) := take_word r in
          match rhs, expect " -->" r with
          | String _ _, Some _ => Some (lhs, rhs)
          | _, _ => None
          end
      | _, _ => None
      end
  | None => None
  end.

Definition assign_re : string -> option (string * string) := search assign_here.

(** Modelled from the spec: the directives [<!-- include: path -->],
    [<!-- css: path -->], [<!-- js: path -->] and the publication and art
    embeds written the same way; the patterns [Regex.INCLUDE], [Regex.CSS],
    [Regex.JS], [Regex.PUBLICATION] and [Regex.ART] are missing from the
    sources. *)
Definition include_re : string -> option string := search (directive_here "include").
Definition css_re : string -> option string := search (directive_here "css").
Definition js_re : string -> option string := search (directive_here "js").
Definition publication_re : string -> option string :=
  search (directive_here "publication").
Definition art_re : string -> option string := search (directive_here "art").

(** Modelled from the spec: the image directive
    [<!-- image: path | description -->]; the pattern [Regex.IMAGE] is
    missing from the sources. *)
Definition image_here (s : string) : option (string * string) :=
  match expect "<!-- image: " s with
  | Some r =>
      match take_until " | " r with
      | Some path =>
          match take_until " -->" (Py.drop (String.length path + 3) r) with
          | Some description => Some (path, description)
          | None => None
          end
      | None => None
      end
  | None => None
  end.

Definition image_re : string -> option (string * string) := search image_here.

Definition blank_line : string :=
  String Py.newline (String Py.newline EmptyString).

(** Markdown on text without markup: the paragraphs, separated by blank
    lines, are wrapped one by one. *)
Definition markdown_plain (text : string) : string :=
  "<p>" +:+ Py.replace blank_line ("</p>" +:+ String Py.newline "<p>") text
        +:+ "</p>".

(** Modelled from the spec: the image embed builds a markup image reference
    from the path and the description; [DuMark.get_image] is missing from the
    sources. *)
Definition image_reference (src alt : string) : string :=
  "![" +:+ alt +:+ "](" +:+ src +:+ ")".

(** Modelled from the spec: a structured-data renderer takes the condition
    list and the template lines and returns text; [Data.papers] and
    [Data.arts] are missing from the sources.  This one has a single item
    that meets every condition. *)
Definition fill_all (conditions template : list string) : string :=
  Py.join template.

(** [posixpath.join] of two components. *)
Definition posix_join (a b : string) : string :=
  if Py.startswith "/" b then b
  else match a with
       | EmptyString => b
       | _ => if String.eqb (Py.last_n 1 a) "/" then a +:+ b else a +:+ "/" +:+ b
       end.

Definition externals : Externals :=
  {| ASSIGN := assign_re; INCLUDE := include_re;
     CSS := css_re; JS := js_re; IMAGE := image_re;
     PUBLICATION := publication_re; ART := art_re;
     VARIABLE := variable_re; markdown := markdown_plain;
     csscompress := fun css => css; jsmin := fun js => js;
     htmlminify := fun html => html;
     get_image := image_reference;
     papers_fill := fill_all;
     arts_fill := fill_all;
     path_join := posix_join |}.

Definition config (current en cn : catalog) : Config :=
  {| lang_current := current; lang_en := en; lang_cn := cn;
     dir_templates := "templates"; dir_builds := "builds"; dir_css := "css";
     dir_js := "js"; dir_images := "images";
     minimize_css := true; minimize_js := true; minimize_html := true;
     debug_html := false |}.

(** Two paragraphs separated by a blank line. *)
Definition two_paragraphs : string := "a" +:+ blank_line +:+ "b".

(** A catalog defining [a] only, and one defining [a_end] only. *)
Definition cat_a : catalog := {[ "a" := "X" ]}.
Definition cat_a_end : catalog := {[ "a_end" := "Z" ]}.

End Sample.

(** A line that does not take the early exit of the loop in [compile]. *)
Definition has_marker (line : string) : Prop :=
  Py.contains "<!--" line = true \/ Py.contains "{{" line = true.

(** A line that reaches variable resolution as it was read: it carries a
    marker and none of the seven directive patterns matches it. *)
Definition plain_line (X : Externals) (line : string) : Prop :=
  has_marker line
  /\ ASSIGN X line = None /\ INCLUDE X line = None /\ CSS X line = None
  /\ JS X line = None /\ IMAGE X line = None /\ PUBLICATION X line = None
  /\ ART X line = None.

Definition warning_missing (name : string) : event :=
  EvLog Warning ("Cannot find variable " +:+ name +:+ " in current lang.").

Definition error_missing (name : string) : event :=
  EvLog Error ("Cannot find English variable " +:+ name +:+ ".").

(** What a finished resolution looks like: either no reference is left and
    only warnings were recorded, or the leftmost reference of the returned
    line is one that is missing from both catalogs, and the records end with
    its warning and its error. *)
Definition only_warnings (evs : list event) : Prop :=
  Forall (fun e => exists name, e = warning_missing name) evs.

Definition stopped_at_miss (X : Externals) (C : Config) (s : state)
    (out : string) (evs : list event) : Prop :=
  exists (g0 g1 : string) (language : catalog) (name : string)
         (evs0 : list event),
    VARIABLE X out = Some (g0, g1)
    /\ force_language C (redirect (assign_dict s) g1) = (language, name)
    /\ language !! name = None
    /\ lang_en C !! name = None
    /\ evs = (evs0 ++ [warning_missing name; error_missing name])%list
    /\ only_warnings evs0.

(** [stops_after X C assign n line evs out]: under the assignment table
    [assign], resolution of [line] makes [n] substitutions, each of the
    leftmost reference by the text found for it (in the selected catalog, or
    in the English one with a warning), and then meets a reference that is
    missing from both catalogs.  [out] is the line as it stands at that
    point, whole, and [evs] the records made: the warnings of the
    substitutions, then the warning and the error of the miss. *)
Inductive stops_after (X : Externals) (C : Config) (assign : gmap string string)
  : nat -> string -> list event -> string -> Prop :=
| miss_now line g0 g1 language name :
    VARIABLE X line = Some (g0, g1) ->
    force_language C (redirect assign g1) = (language, name) ->
    language !! name = None ->
    lang_en C !! name = None ->
    stops_after X C assign 0 line
      [warning_missing name; error_missing name] line
| found_first n line g0 g1 language name value evs out :
    VARIABLE X line = Some (g0, g1) ->
    force_language C (redirect assign g1) = (language, name) ->
    language !! name = Some value ->
    stops_after X C assign n
      (Py.replace g0 (parse_markdown X value) line) evs out ->
    stops_after X C assign (S n) line evs out
| fallback_first n line g0 g1 language name value evs out :
    VARIABLE X line = Some (g0, g1) ->
    force_language C (redirect assign g1) = (language, name) ->
    language !! name = None ->
    lang_en C !! name = Some value ->
    stops_after X C assign n
      (Py.replace g0 (parse_markdown X value) line) evs out ->
    stops_after X C assign (S n) line (warning_missing name :: evs) out.

(** The opening brace, whose occurrences measure the work left in
    [parse_variable]. *)
Definition brace : ascii := "{"%char.

(** ** Runs *)

(** The two caches only grow: [s'] has every processed asset and every
    rendered file of [s], with the same rendering. *)
Definition extends (s s' : state) : Prop :=
  built_dict s ⊆ built_dict s' /\ built_html s ⊆ built_html s'.

(** [post m s Q]: however the call [m] ends from [s], [Q] holds of the
    state it ends in. *)
Definition post {A : Type} (m : M A) (s : state) (Q : state -> Prop) : Prop :=
  match m s with
  | Ok _ s' | Raise _ s' => Q s'
  | OutOfFuel => True
  end.

(** A call that leaves the caches extended, however it ends. *)
Definition preserves {A : Type} (m : M A) : Prop :=
  forall s, match m s with
            | Ok _ s' | Raise _ s' => extends s s'
            | OutOfFuel => True
            end.

(** The file system replaced by [fs]: the sources edited on disk. *)
Definition with_files (fs : gmap string string) (s : state) : state :=
  {| assign_dict := assign_dict s; built_dict := built_dict s;
     built_html := built_html s; files := fs; trace := trace s |}.

(** The assignment table replaced by [assign]. *)
Definition with_assign (assign : gmap string string) (s : state) : state :=
  {| assign_dict := assign; built_dict := built_dict s;
     built_html := built_html s; files := files s; trace := trace s |}.

(** What can happen to a [Compiler] object within one run, from one state
    the execution passes through to the next.  Calls of the methods that
    return are steps, and so are the pieces a call in progress is made of: a
    log record or a read ([step_logged]), a line of the loop in [compile]
    ([step_line]), a resolved line ([step_resolved]), a file written
    ([step_written]) and the rendering stored at the end of [compile]
    ([step_stored]; for a file that is not cached at that point: the
    [compile] of a file begins with the file not cached, and a file that is
    rendered while its own [compile] is in progress includes itself, which
    the steps leave out).  So the states in which a directive
    line calls [compile], [compile_css] or [compile_js], after its log record
    and at any depth of includes, are reached by these steps.  The sources
    and the assignment table may change between the steps. *)
Inductive run_step (X : Externals) (C : Config) : state -> state -> Prop :=
| step_compile fuel filename write_to_file s html s' :
    compile X C fuel filename write_to_file s = Ok html s' ->
    run_step X C s s'
| step_logged evs s : run_step X C s (logged s evs)
| step_written path content s s' :
    write_file path content s = Ok tt s' -> run_step X C s s'
| step_stored filename html s s' :
    built_html s !! filename = None ->
    set_html filename html s = Ok tt s' -> run_step X C s s'
| step_line fuel fuel' line html s html' s' :
    process_line X C (fun f => compile X C fuel f false) fuel' line html s
    = Ok html' s' ->
    run_step X C s s'
| step_resolved fuel line s out s' :
    parse_variable X C fuel line s = Ok out s' -> run_step X C s s'
| step_css filename s b s' :
    compile_css X C filename s = Ok b s' -> run_step X C s s'
| step_js filename s b s' :
    compile_js X C filename s = Ok b s' -> run_step X C s s'
| step_publication filename s html s' :
    compile_publication X filename s = Ok html s' -> run_step X C s s'
| step_art filename s html s' :
    compile_art X filename s = Ok html s' -> run_step X C s s'
| step_files fs s : run_step X C s (with_files fs s)
| step_assign assign s : run_step X C s (with_assign assign s).

(** The reference tags [compile] writes for an asset directive. *)
Definition css_tag (X : Externals) (C : Config) (css_filename : string) : string :=
  "<link rel=" +:+ String Py.dquote "stylesheet"
    +:+ String Py.dquote " href=" +:+ String Py.dquote "/"
    +:+ slashes (path_join X (dir_css C) css_filename) +:+ String Py.dquote " />".

Definition js_tag (X : Externals) (C : Config) (js_filename : string) : string :=
  "<script src=" +:+ String Py.dquote "/"
    +:+ slashes (path_join X (dir_js C) js_filename)
    +:+ String Py.dquote "></script>".

(** The record of a cache hit in [compile]. *)
Definition reusing (filename : string) : event :=
  EvLog Info ("Reusing HTML: " +:+ filename).

(** ** Sample sources *)

Module Site.

Definition nl : string := String Py.newline EmptyString.

Definition cfg : Config := Sample.config Sample.cat_a Sample.cat_a ∅.





(** A page that names the same stylesheet twice. *)
Definition css_line : string := "<!-- css: site.css -->" +:+ nl.

Definition page_files : gmap string string :=
  {[ "templates/index.html" := css_line +:+ css_line;
     "templates/css/site.css" := "body{}" ]}.

(** The compiler after [compile_css] of the stylesheet. *)
Definition css_built : state :=
  {| assign_dict := ∅; built_dict := {[ "site.css" ]}; built_html := ∅;
     files := <[ "builds/css/site.css" := "body{}" ]> page_files;
     trace := [EvRead "templates/css/site.css";
               EvWrite "builds/css/site.css" "body{}"] |}.

(** A page that embeds the same publication list twice. *)
Definition publication_line : string := "<!-- publication: pubs.html -->" +:+ nl.

Definition publication_files : gmap string string :=
  {[ "templates/index.html" := publication_line +:+ publication_line;
     "templates/pubs.html" := "<!--[a,b]-->" +:+ nl +:+ "item" +:+ nl ]}.

(** The compiler after [compile] of that page. *)
Definition publication_compiled : state :=
  {| assign_dict := ∅; built_dict := ∅;
     built_html := {[ "index.html" := "item" +:+ nl +:+ "item" +:+ nl ]};
     files := publication_files;
     trace := [EvRead "templates/index.html";
               EvRead "templates/pubs.html";
               EvFill Papers ["a"; "b"] ["item" +:+ nl];
               EvRead "templates/pubs.html";
               EvFill Papers ["a"; "b"] ["item" +:+ nl]] |}.

(** A catalog whose only text holds closing and opening braces but no
    reference, and the lines that resolution of [{{a}}}}] runs through:
    [p] times two closing braces, a middle part, [q] times an unfinished
    reference. *)
Definition braces : string := "}}}}{{a{{a".

Definition cat_braces : catalog := {[ "a" := braces ]}.

Definition cfg_braces : Config := Sample.config cat_braces ∅ ∅.

Fixpoint closers (p : nat) (s : string) : string :=
  match p with
  | 0 => s
  | S p' => "}}" +:+ closers p' s
  end.

Fixpoint openers (q : nat) : string :=
  match q with
  | 0 => EmptyString
  | S q' => "{{a" +:+ openers q'
  end.

Definition line_a (p q : nat) : string := closers p ("{{a}}}}" +:+ openers q).
Definition line_b (p q : nat) : string := closers p ("{{a{{a}}" +:+ openers q).

End Site.

(** ** Further notions used by the properties *)

(** The contents an asset is written with: minified when the switch is on
    and the name does not announce a minified file, copied otherwise. *)
Definition asset_output (minimize : bool) (compress : string -> string)
    (filename content : string) : string :=
  if minimize && negb (Py.contains ".min." filename)
  then compress content else content.

(** The compiler once the asset [filename], read from [source], has been
    written to [output] with [content]. *)
Definition asset_built (s : state) (filename source output content : string)
  : state :=
  {| assign_dict := assign_dict s;
     built_dict := {[filename]} ∪ built_dict s;
     built_html := built_html s;
     files := <[output := content]> (files s);
     trace := trace s ++ [EvRead source; EvWrite output content] |}.

(** The compiler once [html] has been stored as the rendering of
    [filename]. *)
Definition rendered (filename html : string) (s : state) : state :=
  {| assign_dict := assign_dict s; built_dict := built_dict s;
     built_html := <[filename := html]> (built_html s);
     files := files s; trace := trace s |}.

(** The paths [compile], [compile_css] and [compile_js] write to. *)
Definition output_path (X : Externals) (C : Config) (path : string) : Prop :=
  (exists filename, path = path_join X (dir_builds C) filename)
  \/ (exists filename, path = path_join3 X (dir_builds C) (dir_css C) filename)
  \/ (exists filename, path = path_join3 X (dir_builds C) (dir_js C) filename).

(** Every name in [built_dict] has an output file. *)
Definition built_on_disk (X : Externals) (C : Config) (s : state) : Prop :=
  forall filename, filename ∈ built_dict s ->
    is_Some (files s !! path_join3 X (dir_builds C) (dir_css C) filename)
    \/ is_Some (files s !! path_join3 X (dir_builds C) (dir_js C) filename).

(** A call that, however it ends, leaves a state related by [R] to the one
    it started in. *)
Definition keeps {A : Type} (R : state -> state -> Prop) (m : M A) : Prop :=
  forall s, post m s (R s).

(** A line that [compile] copies: it has no marker, or it has one but is
    neither a directive nor holds a reference. *)
Definition copied_line (X : Externals) (line : string) : Prop :=
  ~ has_marker line \/ (plain_line X line /\ VARIABLE X line = None).

(** [sep.join(pieces)] for a one-character separator. *)
Fixpoint join_with (sep : ascii) (pieces : list string) : string :=
  match pieces with
  | [] => EmptyString
  | [piece] => piece
  | piece :: rest => piece +:+ String sep (join_with sep rest)
  end.

(** Two backslashes in a row, the text [parse_markdown] turns into a line
    break. *)
Definition backslash_pair : string :=
  String Py.backslash (String Py.backslash EmptyString).

(** ** More sample sources *)

Module Pages.

Definition nl : string := String Py.newline EmptyString.

(** A page without directives. *)
Definition plain : string := "<h1>Hi</h1>" +:+ nl +:+ "<p>text</p>" +:+ nl.

Definition include_line : string := "<!-- include: footer.html -->" +:+ nl.

Definition missing_line : string := "<!-- include: nothere.html -->" +:+ nl.

(** A page with an ordinary comment and no directive. *)
Definition commented : string := "<!-- menu -->" +:+ nl +:+ "<ul></ul>" +:+ nl.

(** A page that includes a file that does not exist. *)
Definition broken : string := "<h1>Hi</h1>" +:+ nl +:+ missing_line +:+ "end".

(** A page that includes the footer between two lines of its own. *)
Definition framed : string := "<h1>Hi</h1>" +:+ nl +:+ include_line +:+ "end".

Definition files : gmap string string :=
  {[ "templates/plain.html" := plain;
     "templates/footer.html" := "bye";
     "templates/empty.html" := EmptyString;
     "templates/commented.html" := commented;
     "templates/broken.html" := broken;
     "templates/framed.html" := framed;
     "templates/pubs.html" := "<!--[a, b]-->" +:+ nl +:+ "item" +:+ nl;
     "templates/css/site.css" := "body{}";
     "templates/js/lib.min.js" := "f ( )" ]}.

End Pages.


(** * Properties *)

(** ** Strings *)

Section StringFacts.

Lemma append_length (a b : string) :
  String.length (a +:+ b) = String.length a + String.length b.
Proof. induction a as [|c a IH]; simpl; [reflexivity | now rewrite IH]. Qed.

Lemma append_assoc (a b c : string) : (a +:+ b) +:+ c = a +:+ (b +:+ c).
Proof. induction a as [|x a IH]; [reflexivity | simpl; f_equal; exact IH]. Qed.

Lemma append_empty_r (a : string) : a +:+ EmptyString = a.
Proof. induction a as [|x a IH]; simpl; [reflexivity | now rewrite IH]. Qed.

Lemma take_append (a b : string) : Py.take (String.length a) (a +:+ b) = a.
Proof.
  induction a as [|x a IH]; simpl.
  - now destruct b.
  - now rewrite IH.
Qed.

Lemma drop_append (a b : string) : Py.drop (String.length a) (a +:+ b) = b.
Proof. induction a as [|x a IH]; simpl; [reflexivity | exact IH]. Qed.

Lemma take_drop (n : nat) (s : string) : Py.take n s +:+ Py.drop n s = s.
Proof.
  revert s; induction n as [|n IH]; intros [|c s]; simpl; try reflexivity.
  now rewrite IH.
Qed.

Lemma take_length (n : nat) (s : string) :
  n <= String.length s -> String.length (Py.take n s) = n.
Proof.
  revert s; induction n as [|n IH]; intros [|c s]; simpl; intros H;
    try reflexivity; try lia.
  rewrite IH; lia.
Qed.

Lemma drop_length (n : nat) (s : string) :
  String.length (Py.drop n s) = String.length s - n.
Proof.
  revert s; induction n as [|n IH]; intros [|c s]; simpl; try reflexivity.
  apply IH.
Qed.

Lemma take_take (n m : nat) (s : string) :
  n <= m -> Py.take n (Py.take m s) = Py.take n s.
Proof.
  revert m s; induction n as [|n IH]; intros [|m] [|c s] H; simpl;
    try reflexivity; try lia.
  rewrite IH; [reflexivity | lia].
Qed.

Lemma startswith_append (p s : string) : Py.startswith p (p +:+ s) = true.
Proof.
  induction p as [|c p IH]; simpl; [reflexivity|].
  now rewrite Ascii.eqb_refl.
Qed.

Lemma startswith_split (p s : string) :
  Py.startswith p s = true -> s = p +:+ Py.drop (String.length p) s.
Proof.
  revert s; induction p as [|c p IH]; intros [|d s]; simpl; try easy.
  destruct (Ascii.eqb c d) eqn:E; [|easy].
  apply Ascii.eqb_eq in E; subst d. intros H. now rewrite <- (IH s H).
Qed.

Lemma count_append (c : ascii) (a b : string) :
  Py.count c (a +:+ b) = Py.count c a + Py.count c b.
Proof. induction a as [|x a IH]; simpl; [reflexivity | rewrite IH; lia]. Qed.

End StringFacts.

(** ** [parse_markdown] *)

Lemma parse_markdown_wrapped (X : Externals) (text body : string) :
  markdown X (markdown_input text) = "<p>" +:+ body +:+ "</p>" ->
  body <> EmptyString ->
  parse_markdown X text = body.
Proof.
  intros Hr Hb. unfold parse_markdown. rewrite Hr.
  assert (Hlen : String.length ("<p>" +:+ body +:+ "</p>") = String.length body + 7).
  { rewrite !append_length. simpl. lia. }
  assert (Hpre : ("<p>" +:+ body +:+ "</p>") = ("<p>" +:+ body) +:+ "</p>").
  { now rewrite append_assoc. }
  assert (Hcut : String.length ("<p>" +:+ body +:+ "</p>") - 4
                 = String.length ("<p>" +:+ body)).
  { rewrite Hlen, append_length. simpl. lia. }
  assert (Hlt : Nat.ltb 7 (String.length ("<p>" +:+ body +:+ "</p>")) = true).
  { apply Nat.ltb_lt. rewrite Hlen. destruct body; [congruence | simpl; lia]. }
  rewrite Hlt.
  assert (Hlast : Py.last_n 4 ("<p>" +:+ body +:+ "</p>") = "</p>").
  { unfold Py.last_n. rewrite Hcut, Hpre. apply drop_append. }
  rewrite Hlast.
  assert (Hslice : Py.slice 3 4 ("<p>" +:+ body +:+ "</p>") = body).
  { unfold Py.slice, Py.drop_last. rewrite Hcut, Hpre, take_append.
    reflexivity. }
  rewrite Hslice. reflexivity.
Qed.

Lemma parse_markdown_cases (X : Externals) (text : string) :
  (exists body, body <> EmptyString
     /\ markdown X (markdown_input text) = "<p>" +:+ body +:+ "</p>"
     /\ parse_markdown X text = body)
  \/ ((forall body, body <> EmptyString ->
         markdown X (markdown_input text) <> "<p>" +:+ body +:+ "</p>")
      /\ parse_markdown X text = markdown X (markdown_input text)).
Proof.
  unfold parse_markdown.
  set (r := markdown X (markdown_input text)).
  destruct (Nat.ltb 7 (String.length r)) eqn:Hlt; cbn [andb].
  2:{ right. split; [|reflexivity]. intros body Hb Hr.
      apply Nat.ltb_ge in Hlt. rewrite Hr in Hlt. simpl in Hlt.
      rewrite append_length in Hlt.
      destruct body; [congruence | simpl in Hlt; lia]. }
  apply Nat.ltb_lt in Hlt.
  destruct (String.eqb (Py.take 3 r) "<p>") eqn:Hp; cbn [andb].
  2:{ right. split; [|reflexivity]. intros body _ Hr.
      rewrite Hr in Hp. simpl in Hp. discriminate. }
  destruct (String.eqb (Py.last_n 4 r) "</p>") eqn:Hq.
  2:{ right. split; [|reflexivity]. intros body _ Hr.
      assert (Hpre : r = ("<p>" +:+ body) +:+ "</p>")
        by now rewrite append_assoc.
      unfold Py.last_n in Hq.
      replace (String.length r - 4) with (String.length ("<p>" +:+ body)) in Hq.
      - rewrite Hpre, drop_append in Hq. discriminate.
      - rewrite Hr, !append_length. simpl. lia. }
  left. apply String.eqb_eq in Hp, Hq. clearbody r.
  assert (Hr : r = "<p>" +:+ Py.slice 3 4 r +:+ "</p>").
  { unfold Py.slice, Py.drop_last. unfold Py.last_n in Hq.
    rewrite <- Hq, <- Hp.
    rewrite <- (take_take 3 (String.length r - 4) r) by lia.
    rewrite <- append_assoc, take_drop, take_drop. reflexivity. }
  exists (Py.slice 3 4 r). split; [|split; [exact Hr | reflexivity]].
  intros He. rewrite He in Hr. rewrite Hr in Hlt. simpl in Hlt. lia.
Qed.

(** C8 (as amended): [parse_markdown] removes the leading [<p>] and the
    trailing [</p>] whenever the Markdown rendering is [<p>body</p>] with a
    non-empty [body], whether [body] is one paragraph or runs over several;
    every other rendering is returned unchanged. *)
Theorem parse_markdown_strips_outer_markers (X : Externals) (text : string) :
  (forall body, body <> EmptyString ->
     markdown X (markdown_input text) = "<p>" +:+ body +:+ "</p>" ->
     parse_markdown X text = body)
  /\ ((forall body, body <> EmptyString ->
         markdown X (markdown_input text) <> "<p>" +:+ body +:+ "</p>") ->
      parse_markdown X text = markdown X (markdown_input text)).
Proof.
  split.
  - intros body Hb Hr. now apply parse_markdown_wrapped.
  - intros Hno. destruct (parse_markdown_cases X text) as [(body & Hb & Hr & _) | [_ H]].
    + now destruct (Hno body Hb).
    + exact H.
Qed.

Lemma parse_markdown_strips_outer_markers_witness :
  parse_markdown Sample.externals "hello" = "hello"
  /\ parse_markdown Sample.externals EmptyString = "<p></p>".
Proof.
  split.
  - apply (proj1 (parse_markdown_strips_outer_markers Sample.externals "hello") "hello").
    + discriminate.
    + reflexivity.
  - apply (proj2 (parse_markdown_strips_outer_markers Sample.externals EmptyString)).
    intros body Hb H. vm_compute in H.
    apply (f_equal String.length) in H. simpl in H.
    rewrite append_length in H. destruct body; [congruence | simpl in H; lia].
Defined.

(** C8 (as stated) fails: a rendering made of two paragraphs starts with
    [<p>] and ends with [</p>], so its outer markers are cut off and the
    text is not left untouched. *)
Lemma parse_markdown_multi_paragraph_cut :
  markdown Sample.externals (markdown_input Sample.two_paragraphs)
    = "<p>a</p>" +:+ String Py.newline "<p>b</p>"
  /\ parse_markdown Sample.externals Sample.two_paragraphs
    = "a</p>" +:+ String Py.newline "<p>b"
  /\ parse_markdown Sample.externals Sample.two_paragraphs
    <> markdown Sample.externals (markdown_input Sample.two_paragraphs).
Proof. repeat split; try reflexivity. vm_compute. discriminate. Qed.

(** ** [parse_variable] *)

Section ParseVariable.

Variable X : Externals.
Variable C : Config.

Lemma logged_logged (s : state) (a b : list event) :
  logged (logged s a) b = logged s (a ++ b).
Proof. unfold logged; simpl. now rewrite <- app_assoc. Qed.

Lemma logged_nil (s : state) : logged s [] = s.
Proof. destruct s; unfold logged; simpl. now rewrite app_nil_r. Qed.

Lemma parse_variable_no_reference (fuel : nat) (line : string) (s : state) :
  VARIABLE X line = None -> parse_variable X C fuel line s = Ok line s.
Proof. intros H. destruct fuel; simpl; now rewrite H. Qed.

(** One iteration whose lookup succeeds in the selected catalog. *)
Lemma parse_variable_found (fuel : nat) (line : string) (s : state)
    (g0 g1 name value : string) (language : catalog) :
  VARIABLE X line = Some (g0, g1) ->
  force_language C (redirect (assign_dict s) g1) = (language, name) ->
  language !! name = Some value ->
  parse_variable X C (S fuel) line s
  = parse_variable X C fuel (Py.replace g0 (parse_markdown X value) line) s.
Proof. intros Hv Hf Hl. simpl. now rewrite Hv, Hf, Hl. Qed.

(** C5: a reference whose redirected, suffix-stripped name is absent from
    the selected catalog and present in the English one is replaced by the
    English text after [parse_markdown]; this iteration records a warning
    and nothing else, and resolution goes on with the rest of the line. *)
Theorem parse_variable_fallback (fuel : nat) (line : string) (s : state)
    (g0 g1 name value : string) (language : catalog) :
  VARIABLE X line = Some (g0, g1) ->
  force_language C (redirect (assign_dict s) g1) = (language, name) ->
  language !! name = None ->
  lang_en C !! name = Some value ->
  parse_variable X C (S fuel) line s
  = parse_variable X C fuel (Py.replace g0 (parse_markdown X value) line)
      (logged s [warning_missing name]).
Proof.
  intros Hv Hf Hl He. simpl. rewrite Hv, Hf, Hl.
  unfold bind, log, emit. now rewrite He.
Qed.

(** One iteration on a two-tier miss: the loop is left, the line comes
    back as it stands, a warning and an error are recorded. *)
Lemma parse_variable_miss (fuel : nat) (line : string) (s : state)
    (g0 g1 name : string) (language : catalog) :
  VARIABLE X line = Some (g0, g1) ->
  force_language C (redirect (assign_dict s) g1) = (language, name) ->
  language !! name = None ->
  lang_en C !! name = None ->
  parse_variable X C (S fuel) line s
  = Ok line (logged s [warning_missing name; error_missing name]).
Proof.
  intros Hv Hf Hl He. simpl. rewrite Hv, Hf, Hl.
  unfold bind, log, emit. rewrite He. unfold ret.
  now rewrite logged_logged.
Qed.

Lemma parse_variable_result (fuel : nat) :
  forall (line : string) (s : state) (out : string) (s' : state),
    parse_variable X C fuel line s = Ok out s' ->
    exists evs, s' = logged s evs
      /\ ((VARIABLE X out = None /\ only_warnings evs)
          \/ stopped_at_miss X C s out evs).
Proof.
  induction fuel as [|fuel IH]; intros line s out s' H; simpl in H;
    destruct (VARIABLE X line) as [[g0 g1]|] eqn:Hv.
  - discriminate.
  - inversion H; subst. exists []. rewrite logged_nil. split; [reflexivity|].
    left. split; [assumption | constructor].
  - destruct (force_language C (redirect (assign_dict s) g1))
      as [language name] eqn:Hf.
    destruct (language !! name) as [value|] eqn:Hl.
    + now apply IH in H.
    + unfold bind, log, emit in H.
      destruct (lang_en C !! name) as [value|] eqn:He.
      * apply IH in H. destruct H as (evs & -> & Hcases).
        exists (warning_missing name :: evs). rewrite logged_logged.
        split; [reflexivity|].
        destruct Hcases as [[Hnone Hw] | Hstop].
        -- left. split; [assumption|]. constructor; [now exists name | assumption].
        -- right. destruct Hstop as (h0 & h1 & l & n & evs0 & H1 & H2 & H3 & H4 & H5 & H6).
           exists h0, h1, l, n, (warning_missing name :: evs0).
           repeat split; try assumption.
           ++ now rewrite H5.
           ++ constructor; [now exists name | assumption].
      * unfold ret in H. inversion H; subst. rewrite logged_logged.
        exists [warning_missing name; error_missing name].
        split; [reflexivity|]. right.
        exists g0, g1, language, name, []. repeat split; try assumption.
        constructor.
  - inversion H; subst. exists []. rewrite logged_nil. split; [reflexivity|].
    left. split; [assumption | constructor].
Qed.

(** A plain line goes through [process_line] as [parse_variable] leaves it. *)
Lemma embeds_plain (fuel : nat) (line : string) (s : state) :
  IMAGE X line = None -> PUBLICATION X line = None -> ART X line = None ->
  embeds X C fuel line s = Ok line s.
Proof.
  intros Hi Hp Ha. unfold embeds, bind, ret. now rewrite Hi, Hp, Ha.
Qed.

Lemma process_line_plain (self_compile : string -> M string) (fuel : nat)
    (line html : string) (s : state) :
  plain_line X line ->
  process_line X C self_compile fuel line html s
  = match parse_variable X C fuel line s with
    | Ok out s' => Ok (html +:+ out) s'
    | Raise e s' => Raise e s'
    | OutOfFuel => OutOfFuel
    end.
Proof.
  intros (Hm & Has & Hin & Hcss & Hjs & Hi & Hp & Ha). unfold process_line.
  assert (Hfast : negb (Py.contains "<!--" line) && negb (Py.contains "{{" line)
                  = false).
  { destruct Hm as [-> | ->]; simpl; [reflexivity | apply andb_false_r]. }
  rewrite Hfast, Has, Hin, Hcss, Hjs. unfold bind at 1.
  rewrite embeds_plain by assumption. unfold bind, ret. reflexivity.
Qed.

Lemma parse_variable_stops (assign : gmap string string) (n : nat)
    (line : string) (evs : list event) (out : string) :
  stops_after X C assign n line evs out ->
  forall s, assign_dict s = assign ->
    (forall fuel, n < fuel ->
       parse_variable X C fuel line s = Ok out (logged s evs))
    /\ (forall fuel, fuel <= n -> parse_variable X C fuel line s = OutOfFuel).
Proof.
  induction 1 as [line g0 g1 language name Hv Hf Hl He
                 |n line g0 g1 language name value evs out Hv Hf Hl _ IH
                 |n line g0 g1 language name value evs out Hv Hf Hl He _ IH];
    intros s Hs; subst assign.
  - split; intros fuel Hfuel.
    + destruct fuel as [|fuel]; [lia|].
      now apply parse_variable_miss with (g0 := g0) (g1 := g1)
                                         (language := language).
    + assert (fuel = 0) as -> by lia. simpl. now rewrite Hv.
  - destruct (IH s eq_refl) as [IHok IHout]. split; intros fuel Hfuel.
    + destruct fuel as [|fuel]; [lia|].
      rewrite (parse_variable_found fuel line s g0 g1 name value language Hv Hf Hl).
      apply IHok. lia.
    + destruct fuel as [|fuel]; [simpl; now rewrite Hv|].
      rewrite (parse_variable_found fuel line s g0 g1 name value language Hv Hf Hl).
      apply IHout. lia.
  - destruct (IH (logged s [warning_missing name]) eq_refl) as [IHok IHout].
    assert (Hstep : forall fuel,
               parse_variable X C (S fuel) line s
               = parse_variable X C fuel
                   (Py.replace g0 (parse_markdown X value) line)
                   (logged s [warning_missing name])).
    { intros fuel. simpl. rewrite Hv, Hf, Hl. unfold bind, log, emit.
      now rewrite He. }
    split; intros fuel Hfuel.
    + destruct fuel as [|fuel]; [lia|].
      rewrite Hstep, IHok by lia. now rewrite logged_logged.
    + destruct fuel as [|fuel]; [simpl; now rewrite Hv|].
      rewrite Hstep. apply IHout. lia.
Qed.

(** C4 (as amended): when resolution of a line, after the substitutions of
    the references before it, meets a reference that is missing from the
    selected and from the English catalog, it stops there: [parse_variable]
    returns (as soon as it is given one iteration more than the substitutions
    made, and not before), a warning and an error are recorded, and what it
    returns is the line as it stands at that point, nothing cut: the
    substitutions made before are in it and the unresolved reference is still
    its leftmost reference; the line is appended to the output and the lines
    after it are processed. *)
Theorem two_tier_miss_leaves_line (n : nat) (line : string)
    (evs : list event) (out : string) (s : state) :
  stops_after X C (assign_dict s) n line evs out ->
  (forall fuel, n < fuel ->
     parse_variable X C fuel line s = Ok out (logged s evs))
  /\ (forall fuel, fuel <= n -> parse_variable X C fuel line s = OutOfFuel)
  /\ stopped_at_miss X C s out evs
  /\ (plain_line X line ->
      forall (fuel : nat) (self_compile : string -> M string)
             (rest : list string) (html : string),
        n < fuel ->
        process_lines X C self_compile fuel (line :: rest) html s
        = process_lines X C self_compile fuel rest (html +:+ out)
            (logged s evs)).
Proof.
  intros Hpath.
  destruct (parse_variable_stops _ _ _ _ _ Hpath s eq_refl) as [Hok Hout].
  split; [exact Hok|]. split; [exact Hout|]. split.
  - pose proof (Hok (S n) (Nat.lt_succ_diag_r n)) as Hrun.
    apply parse_variable_result in Hrun as (evs' & Heq & Hcases).
    assert (evs' = evs) as ->.
    { apply (f_equal trace) in Heq. simpl in Heq.
      now apply app_inv_head in Heq. }
    destruct Hcases as [[Hnone Hw] | Hstop]; [|exact Hstop].
    exfalso. clear Hok Hout Heq.
    induction Hpath as [line g0 g1 language name Hv Hf Hl He
                       |n line g0 g1 language name value evs out Hv Hf Hl _ IH
                       |n line g0 g1 language name value evs out Hv Hf Hl He _ IH].
    + congruence.
    + now apply IH.
    + apply IH; [exact Hnone|]. now inversion Hw.
  - intros Hplain fuel self_compile rest html Hfuel. simpl. unfold bind at 1.
    rewrite process_line_plain by assumption. now rewrite Hok.
Qed.

End ParseVariable.

Lemma parse_variable_fallback_witness :
  parse_variable Sample.externals (Sample.config ∅ Sample.cat_a ∅) 1 "{{a}}" (init ∅)
  = parse_variable Sample.externals (Sample.config ∅ Sample.cat_a ∅) 0
      (Py.replace "{{a}}" (parse_markdown Sample.externals "X") "{{a}}")
      (logged (init ∅) [warning_missing "a"])
  /\ parse_variable Sample.externals (Sample.config ∅ Sample.cat_a ∅) 1 "{{a}}" (init ∅)
     = Ok "X" (logged (init ∅) [warning_missing "a"]).
Proof.
  split.
  - apply (parse_variable_fallback Sample.externals (Sample.config ∅ Sample.cat_a ∅)
             0 "{{a}}" (init ∅) "{{a}}" "a" "a" "X" ∅);
      vm_compute; reflexivity.
  - vm_compute; reflexivity.
Defined.

Lemma two_tier_miss_leaves_line_witness :
  parse_variable Sample.externals (Sample.config Sample.cat_a Sample.cat_a ∅) 2
    "{{a}} and {{zz}} tail" (init ∅)
  = Ok "X and {{zz}} tail"
       (logged (init ∅) [warning_missing "zz"; error_missing "zz"])
  /\ parse_variable Sample.externals (Sample.config Sample.cat_a Sample.cat_a ∅) 1
       "{{a}} and {{zz}} tail" (init ∅)
     = OutOfFuel.
Proof.
  assert (Hpath : stops_after Sample.externals
                    (Sample.config Sample.cat_a Sample.cat_a ∅)
                    (assign_dict (init ∅)) 1 "{{a}} and {{zz}} tail"
                    [warning_missing "zz"; error_missing "zz"]
                    "X and {{zz}} tail").
  { apply (found_first _ _ _ 0 "{{a}} and {{zz}} tail" "{{a}}" "a"
             Sample.cat_a "a" "X").
    - reflexivity.
    - vm_compute; reflexivity.
    - vm_compute; reflexivity.
    - apply (miss_now _ _ _ "X and {{zz}} tail" "{{zz}}" "zz" Sample.cat_a "zz").
      + reflexivity.
      + vm_compute; reflexivity.
      + vm_compute; reflexivity.
      + vm_compute; reflexivity. }
  destruct (two_tier_miss_leaves_line Sample.externals
              (Sample.config Sample.cat_a Sample.cat_a ∅) 1
              "{{a}} and {{zz}} tail"
              [warning_missing "zz"; error_missing "zz"]
              "X and {{zz}} tail" (init ∅) Hpath) as (Hok & Hout & _).
  split; [apply Hok | apply Hout]; lia.
Defined.

(** C4 (as stated) fails: after [{{a}}] is resolved and [{{zz}}] is found
    missing, the line is not cut after the text that replaced [{{a}}]; the
    unresolved reference and the text behind it are still there. *)
Lemma two_tier_miss_line_not_truncated :
  parse_variable Sample.externals (Sample.config Sample.cat_a Sample.cat_a ∅) 5
    "{{a}} and {{zz}} tail" (init ∅)
  = Ok "X and {{zz}} tail"
       (logged (init ∅) [warning_missing "zz"; error_missing "zz"])
  /\ "X and {{zz}} tail" <> "X"
  /\ Py.contains "{{zz}} tail" "X and {{zz}} tail" = true.
Proof. split; [vm_compute; reflexivity | split; [discriminate | reflexivity]]. Qed.

(** C3: the code at a name that has [_en] in its interior.  With
    [Lang.current] holding [a_end], the reference [{{a_end}}] is not looked
    up in the current language: the English catalog is selected and the last
    three characters are cut, so the name looked up is [a_], which is missing,
    and the line is left unresolved. *)
Lemma force_language_interior_en :
  force_language (Sample.config Sample.cat_a_end ∅ ∅) "a_end"
  = (lang_en (Sample.config Sample.cat_a_end ∅ ∅), "a_")
  /\ lang_current (Sample.config Sample.cat_a_end ∅ ∅) !! "a_end" = Some "Z"
  /\ parse_variable Sample.externals (Sample.config Sample.cat_a_end ∅ ∅) 5
       "{{a_end}}" (init ∅)
     = Ok "{{a_end}}" (logged (init ∅) [warning_missing "a_"; error_missing "a_"]).
Proof. repeat split; vm_compute; reflexivity. Qed.

(** ** The monad *)

Lemma bind_ok {A B : Type} (m : M A) (k : A -> M B) (s : state) (b : B) (s' : state) :
  bind m k s = Ok b s' <-> exists a s1, m s = Ok a s1 /\ k a s1 = Ok b s'.
Proof.
  unfold bind. split.
  - destruct (m s) as [a s1| |]; try discriminate. intros H. now exists a, s1.
  - intros (a & s1 & -> & H). exact H.
Qed.

Lemma extends_refl (s : state) : extends s s.
Proof. split; reflexivity. Qed.

Lemma extends_trans (s1 s2 s3 : state) :
  extends s1 s2 -> extends s2 s3 -> extends s1 s3.
Proof. intros [H1 H2] [H3 H4]. split; etrans; eassumption. Qed.

Lemma extends_logged (s : state) (evs : list event) : extends s (logged s evs).
Proof. split; reflexivity. Qed.

Lemma preserves_ret {A : Type} (a : A) : preserves (ret a).
Proof. intros s. apply extends_refl. Qed.

Lemma preserves_raise {A : Type} (e : exn) : preserves (@raise A e).
Proof. intros s. apply extends_refl. Qed.

Lemma preserves_bind {A B : Type} (m : M A) (k : A -> M B) :
  preserves m -> (forall a, preserves (k a)) -> preserves (bind m k).
Proof.
  intros Hm Hk s. unfold bind. specialize (Hm s).
  destruct (m s) as [a s1|e s1|]; try assumption.
  specialize (Hk a s1). destruct (k a s1); try exact I;
    eapply extends_trans; eassumption.
Qed.

Lemma preserves_emit (e : event) : preserves (emit e).
Proof. intros s. apply extends_logged. Qed.

Lemma preserves_log (lvl : level) (msg : string) : preserves (log lvl msg).
Proof. apply preserves_emit. Qed.

Lemma preserves_read_lines (path : string) : preserves (read_lines path).
Proof.
  intros s. unfold read_lines. destruct (files s !! path); [|apply extends_refl].
  apply extends_logged.
Qed.

Lemma preserves_write_file (path content : string) :
  preserves (write_file path content).
Proof. intros s. split; reflexivity. Qed.

Lemma preserves_set_assign (lhs rhs : string) : preserves (set_assign lhs rhs).
Proof. intros s. split; reflexivity. Qed.

Lemma preserves_add_built (name : string) : preserves (add_built name).
Proof. intros s. split; simpl; [set_solver | reflexivity]. Qed.

Create HintDb preserves.
#[local] Hint Resolve preserves_ret preserves_raise preserves_emit preserves_log
  preserves_read_lines preserves_write_file preserves_set_assign
  preserves_add_built : preserves.

Ltac preserves_step :=
  repeat first
    [ apply preserves_bind; [|intros ?]
    | solve [auto with preserves] ].

(** ** The asset pipeline *)

Section Assets.

Variable X : Externals.
Variable C : Config.

Lemma compile_css_cached (f : string) (s : state) :
  f ∈ built_dict s -> compile_css X C f s = Ok false s.
Proof. intros H. unfold compile_css. now rewrite decide_True. Qed.

Lemma compile_js_cached (f : string) (s : state) :
  f ∈ built_dict s -> compile_js X C f s = Ok false s.
Proof. intros H. unfold compile_js. now rewrite decide_True. Qed.

Lemma compile_css_built (f : string) (s : state) (b : bool) (s' : state) :
  compile_css X C f s = Ok b s' -> f ∈ built_dict s'.
Proof.
  unfold compile_css. destruct (decide (f ∈ built_dict s)) as [Hin|Hout].
  - intros H. now inversion H; subst.
  - intros H. apply bind_ok in H as (lines & s1 & _ & H).
    apply bind_ok in H as ([] & s2 & _ & H).
    apply bind_ok in H as ([] & s3 & Hadd & H).
    inversion Hadd; subst. inversion H; subst. simpl. set_solver.
Qed.

Lemma compile_js_built (f : string) (s : state) (b : bool) (s' : state) :
  compile_js X C f s = Ok b s' -> f ∈ built_dict s'.
Proof.
  unfold compile_js. destruct (decide (f ∈ built_dict s)) as [Hin|Hout].
  - intros H. now inversion H; subst.
  - intros H. apply bind_ok in H as (lines & s1 & _ & H).
    apply bind_ok in H as ([] & s2 & _ & H).
    apply bind_ok in H as ([] & s3 & Hadd & H).
    inversion Hadd; subst. inversion H; subst. simpl. set_solver.
Qed.

Lemma preserves_compile_css (f : string) : preserves (compile_css X C f).
Proof.
  intros s. unfold compile_css. destruct (decide (f ∈ built_dict s)).
  - apply extends_refl.
  - revert s n. 
    assert (H : preserves
      (let* lines := read_lines (path_join3 X (dir_templates C) (dir_css C) f) in
       write_file (path_join3 X (dir_builds C) (dir_css C) f)
         (if minimize_css C && negb (Py.contains ".min." f)
          then csscompress X (Py.join lines) else Py.join lines) ;;
       add_built f ;; ret true)) by preserves_step.
    intros s _. apply H.
Qed.

Lemma preserves_compile_js (f : string) : preserves (compile_js X C f).
Proof.
  intros s. unfold compile_js. destruct (decide (f ∈ built_dict s)).
  - apply extends_refl.
  - revert s n.
    assert (H : preserves
      (let* lines := read_lines (path_join3 X (dir_templates C) (dir_js C) f) in
       write_file (path_join3 X (dir_builds C) (dir_js C) f)
         (if minimize_js C && negb (Py.contains ".min." f)
          then jsmin X (Py.join lines) else Py.join lines) ;;
       add_built f ;; ret true)) by preserves_step.
    intros s _. apply H.
Qed.

End Assets.

(** ** The caches only grow *)

Lemma post_bind {A B : Type} (m : M A) (k : A -> M B) (s : state)
    (R Q : state -> Prop) :
  post m s R ->
  (forall s1, R s1 -> Q s1) ->
  (forall a s1, R s1 -> post (k a) s1 Q) ->
  post (bind m k) s Q.
Proof.
  unfold post, bind. destruct (m s) as [a s1|e s1|]; intros H Hr Hk.
  - now apply Hk.
  - now apply Hr.
  - exact I.
Qed.

Lemma preserves_post {A : Type} (m : M A) (s : state) :
  preserves m -> post m s (extends s).
Proof. intros H. apply H. Qed.

Section Growth.

Variable X : Externals.
Variable C : Config.

Lemma preserves_fill_templates (c : collection) (conditions template : list string) :
  preserves (fill_templates X c conditions template).
Proof. unfold fill_templates. preserves_step. Qed.

Lemma preserves_compile_item (c : collection) (f : string) :
  preserves (compile_item X c f).
Proof.
  intros s. unfold compile_item. destruct (built_html s !! f).
  - apply extends_refl.
  - apply (preserves_bind (read_lines f)); [auto with preserves|].
    intros [|first rest]; [auto with preserves | apply preserves_fill_templates].
Qed.

Lemma preserves_parse_variable (fuel : nat) :
  forall line, preserves (parse_variable X C fuel line).
Proof.
  induction fuel as [|fuel IH]; intros line s; simpl;
    destruct (VARIABLE X line) as [[g0 g1]|]; try exact I;
    try apply extends_refl.
  destruct (force_language C (redirect (assign_dict s) g1)) as [language name].
  destruct (language !! name).
  - apply IH.
  - refine (preserves_bind _ _ _ _ s); [auto with preserves|].
    intros _. destruct (lang_en C !! name); [apply IH | preserves_step].
Qed.

Lemma preserves_embeds (fuel : nat) (line : string) :
  preserves (embeds X C fuel line).
Proof.
  unfold embeds. apply preserves_bind.
  - destruct (IMAGE X line) as [[g1 g2]|]; [|auto with preserves].
    apply preserves_bind; [apply preserves_parse_variable | auto with preserves].
  - intros line1. apply preserves_bind.
    + destruct (PUBLICATION X line1); [apply preserves_compile_item | auto with preserves].
    + intros line2.
      destruct (ART X line2); [apply preserves_compile_item | auto with preserves].
Qed.

Lemma preserves_process_line (self_compile : string -> M string) (fuel : nat)
    (line html : string) :
  (forall f, preserves (self_compile f)) ->
  preserves (process_line X C self_compile fuel line html).
Proof.
  intros Hself. unfold process_line.
  destruct (negb (Py.contains "<!--" line) && negb (Py.contains "{{" line));
    [auto with preserves|].
  destruct (ASSIGN X line) as [[lhs rhs]|]; [preserves_step|].
  destruct (INCLUDE X line) as [g|].
  { apply preserves_bind; [auto with preserves|]. intros _.
    apply preserves_bind; [apply Hself | auto with preserves]. }
  destruct (CSS X line) as [g|].
  { apply preserves_bind; [auto with preserves|]. intros _.
    apply preserves_bind; [apply preserves_compile_css | auto with preserves]. }
  destruct (JS X line) as [g|].
  { apply preserves_bind; [auto with preserves|]. intros _.
    apply preserves_bind; [apply preserves_compile_js | auto with preserves]. }
  apply preserves_bind; [apply preserves_embeds|]. intros line1.
  apply preserves_bind; [apply preserves_parse_variable | auto with preserves].
Qed.

Lemma preserves_process_lines (self_compile : string -> M string) (fuel : nat)
    (lines : list string) :
  (forall f, preserves (self_compile f)) ->
  forall html, preserves (process_lines X C self_compile fuel lines html).
Proof.
  intros Hself. induction lines as [|line rest IH]; intros html; simpl.
  - auto with preserves.
  - apply preserves_bind; [now apply preserves_process_line | apply IH].
Qed.

Lemma extends_set_html (s s1 : state) (f html : string) :
  built_html s !! f = None ->
  extends s s1 ->
  post (set_html f html ;; ret html) s1 (extends s).
Proof.
  intros Hnone [Hd Hh]. unfold post, bind, set_html, ret. split; simpl.
  - exact Hd.
  - now apply insert_subseteq_r.
Qed.

Lemma preserves_compile (fuel : nat) :
  forall f w, preserves (compile X C fuel f w).
Proof.
  induction fuel as [|fuel IH]; intros f w s; simpl; [exact I|].
  destruct (built_html s !! f) as [html|] eqn:Hc.
  - apply extends_logged.
  - apply post_bind with (R := extends s).
    + apply preserves_post. auto with preserves.
    + trivial.
    + intros lines s1 H1. apply post_bind with (R := extends s).
      * unfold post. pose proof (preserves_process_lines
          (fun g => compile X C fuel g false) fuel lines
          (fun g => IH g false) EmptyString s1) as Hp.
        destruct (process_lines _ _ _ _ _ _ s1); try exact I;
          eapply extends_trans; eassumption.
      * trivial.
      * intros html s2 H2. apply post_bind with (R := extends s).
        -- assert (Hw : preserves
             (if w then
                let* html0 :=
                  if minimize_html C then
                    (if debug_html C then emit (EvPrint html) else ret tt) ;;
                    ret (htmlminify X html)
                  else ret html in
                write_file (path_join X (dir_builds C) f) html0 ;; ret html0
              else ret html)).
           { destruct w; [|auto with preserves].
             apply preserves_bind.
             - destruct (minimize_html C); [|auto with preserves].
               apply preserves_bind; [|auto with preserves].
               destruct (debug_html C); auto with preserves.
             - intros html0. preserves_step. }
           specialize (Hw s2). unfold post.
           destruct (_ s2); try exact I; eapply extends_trans; eassumption.
        -- trivial.
        -- intros html1 s3 H3. now apply extends_set_html.
Qed.

Lemma run_step_extends (s s' : state) : run_step X C s s' -> extends s s'.
Proof.
  destruct 1 as [fuel f w s html s' H|evs s|path content s s' H
                |f html s s' Hnone H|fuel fuel' line html s html' s' H
                |fuel line s out s' H|f s b s' H|f s b s' H|f s html s' H
                |f s html s' H|fs s|assign s].
  - pose proof (preserves_compile fuel f w s) as Hp. now rewrite H in Hp.
  - apply extends_logged.
  - inversion H; subst. split; reflexivity.
  - inversion H; subst. split; simpl; [reflexivity|].
    now apply insert_subseteq_r.
  - pose proof (preserves_process_line (fun f => compile X C fuel f false)
                  fuel' line html (fun f => preserves_compile fuel f false) s)
      as Hp.
    now rewrite H in Hp.
  - pose proof (preserves_parse_variable fuel line s) as Hp. now rewrite H in Hp.
  - pose proof (preserves_compile_css X C f s) as Hp. now rewrite H in Hp.
  - pose proof (preserves_compile_js X C f s) as Hp. now rewrite H in Hp.
  - pose proof (preserves_compile_item Papers f s) as Hp.
    unfold compile_publication in H. now rewrite H in Hp.
  - pose proof (preserves_compile_item Arts f s) as Hp.
    unfold compile_art in H. now rewrite H in Hp.
  - split; reflexivity.
  - split; reflexivity.
Qed.

Lemma run_extends (s s' : state) : rtc (run_step X C) s s' -> extends s s'.
Proof.
  induction 1 as [s|s1 s2 s3 Hstep _ IH]; [apply extends_refl|].
  eapply extends_trans; [apply run_step_extends; exact Hstep | exact IH].
Qed.

End Growth.

(** ** The render cache *)

Section RenderCache.

Variable X : Externals.
Variable C : Config.

Lemma compile_stores (fuel : nat) (f : string) (w : bool) (s : state)
    (html : string) (s1 : state) :
  compile X C fuel f w s = Ok html s1 -> built_html s1 !! f = Some html.
Proof.
  destruct fuel as [|fuel]; simpl; [discriminate|].
  destruct (built_html s !! f) as [cached|] eqn:Hc; intros H.
  - inversion H; subst. exact Hc.
  - apply bind_ok in H as (lines & s' & _ & H).
    apply bind_ok in H as (html0 & s2 & _ & H).
    apply bind_ok in H as (html1 & s3 & _ & H).
    apply bind_ok in H as ([] & s4 & Hset & H).
    inversion Hset; subst. inversion H; subst. simpl.
    apply lookup_insert_eq.
Qed.

Lemma compile_cached (fuel : nat) (f : string) (w : bool) (s : state)
    (html : string) :
  built_html s !! f = Some html ->
  compile X C (S fuel) f w s = Ok html (logged s [reusing f]).
Proof. intros H. simpl. now rewrite H. Qed.

(** The states inside a call in progress are states of the run: the state
    after any number of lines of a page, and the state in which an include
    line of the page calls [compile], after the page was read, the lines
    before it were processed and its own record was logged. *)
Lemma process_lines_reached (fuel fuel' : nat) (lines : list string) :
  forall html s html' s',
    process_lines X C (fun g => compile X C fuel g false) fuel' lines html s
    = Ok html' s' ->
    rtc (run_step X C) s s'.
Proof.
  induction lines as [|line rest IH]; intros html s html' s' H; simpl in H.
  - inversion H; subst. apply rtc_refl.
  - apply bind_ok in H as (html1 & s1 & H1 & H2).
    eapply rtc_l; [eapply step_line; exact H1 | eapply IH; exact H2].
Qed.

Lemma include_call_reached (fuel fuel' : nat) (page : string)
    (before : list string) (g : string) (s : state) (html1 : string)
    (s1 : state) :
  process_lines X C (fun g => compile X C fuel g false) fuel' before
    EmptyString (logged s [EvRead (path_join X (dir_templates C) page)])
  = Ok html1 s1 ->
  rtc (run_step X C) s (logged s1 [EvLog Info ("Including HTML: " +:+ g)]).
Proof.
  intros H. eapply rtc_l; [apply step_logged|].
  etrans; [eapply process_lines_reached; exact H|].
  apply rtc_once. apply step_logged.
Qed.


End RenderCache.


(** ** Directive dispatch *)

Section Dispatch.

Variable X : Externals.
Variable C : Config.

Lemma not_fast_path (line : string) :
  has_marker line ->
  negb (Py.contains "<!--" line) && negb (Py.contains "{{" line) = false.
Proof. intros [-> | ->]; simpl; [reflexivity | apply andb_false_r]. Qed.

Lemma process_line_css (self_compile : string -> M string) (fuel : nat)
    (line html f : string) (s : state) :
  has_marker line -> ASSIGN X line = None -> INCLUDE X line = None ->
  CSS X line = Some f ->
  process_line X C self_compile fuel line html s
  = match compile_css X C f (logged s [EvLog Info ("Minimizing CSS: " +:+ f)]) with
    | Ok _ s' => Ok (html +:+ css_tag X C f) s'
    | Raise e s' => Raise e s'
    | OutOfFuel => OutOfFuel
    end.
Proof.
  intros Hm Ha Hi Hc. unfold process_line.
  now rewrite (not_fast_path _ Hm), Ha, Hi, Hc.
Qed.

Lemma process_line_js (self_compile : string -> M string) (fuel : nat)
    (line html f : string) (s : state) :
  has_marker line -> ASSIGN X line = None -> INCLUDE X line = None ->
  CSS X line = None -> JS X line = Some f ->
  process_line X C self_compile fuel line html s
  = match compile_js X C f (logged s [EvLog Info ("~ Minimizing JS: " +:+ f)]) with
    | Ok _ s' => Ok (html +:+ js_tag X C f) s'
    | Raise e s' => Raise e s'
    | OutOfFuel => OutOfFuel
    end.
Proof.
  intros Hm Ha Hi Hc Hj. unfold process_line.
  now rewrite (not_fast_path _ Hm), Ha, Hi, Hc, Hj.
Qed.

(** C2: on a line that carries a marker the patterns are tried in the
    order assignment, include, stylesheet, script, and the first that
    matches decides: what the line does then depends on none of the
    patterns after it and [parse_variable] is not run.  Only when none of
    the four matches are the image, publication and art patterns tried (in
    [embeds]), and whatever they did, [parse_variable] runs on the line
    they left. *)
Theorem directive_priority (self_compile : string -> M string) (fuel : nat)
    (line html : string) (s : state) :
  has_marker line ->
  (forall lhs rhs, ASSIGN X line = Some (lhs, rhs) ->
     process_line X C self_compile fuel line html s
     = Ok html (with_assign (<[lhs := rhs]> (assign_dict s)) s))
  /\ (forall g, ASSIGN X line = None -> INCLUDE X line = Some g ->
        process_line X C self_compile fuel line html s
        = match self_compile g (logged s [EvLog Info ("Including HTML: " +:+ g)]) with
          | Ok content s' => Ok (html +:+ content) s'
          | Raise e s' => Raise e s'
          | OutOfFuel => OutOfFuel
          end)
  /\ (forall f, ASSIGN X line = None -> INCLUDE X line = None ->
        CSS X line = Some f ->
        process_line X C self_compile fuel line html s
        = match compile_css X C f (logged s [EvLog Info ("Minimizing CSS: " +:+ f)]) with
          | Ok _ s' => Ok (html +:+ css_tag X C f) s'
          | Raise e s' => Raise e s'
          | OutOfFuel => OutOfFuel
          end)
  /\ (forall f, ASSIGN X line = None -> INCLUDE X line = None ->
        CSS X line = None -> JS X line = Some f ->
        process_line X C self_compile fuel line html s
        = match compile_js X C f (logged s [EvLog Info ("~ Minimizing JS: " +:+ f)]) with
          | Ok _ s' => Ok (html +:+ js_tag X C f) s'
          | Raise e s' => Raise e s'
          | OutOfFuel => OutOfFuel
          end)
  /\ (ASSIGN X line = None -> INCLUDE X line = None -> CSS X line = None ->
      JS X line = None ->
      process_line X C self_compile fuel line html s
      = match embeds X C fuel line s with
        | Ok line1 s1 =>
            match parse_variable X C fuel line1 s1 with
            | Ok line2 s2 => Ok (html +:+ line2) s2
            | Raise e s2 => Raise e s2
            | OutOfFuel => OutOfFuel
            end
        | Raise e s1 => Raise e s1
        | OutOfFuel => OutOfFuel
        end).
Proof.
  intros Hm. repeat split.
  - intros lhs rhs Ha. unfold process_line.
    now rewrite (not_fast_path _ Hm), Ha.
  - intros g Ha Hi. unfold process_line.
    rewrite (not_fast_path _ Hm), Ha, Hi. unfold bind, log, emit.
    now destruct (self_compile g _).
  - intros f. now apply process_line_css.
  - intros f. now apply process_line_js.
  - intros Ha Hi Hc Hj. unfold process_line.
    rewrite (not_fast_path _ Hm), Ha, Hi, Hc, Hj. unfold bind.
    now destruct (embeds X C fuel line s) as [line1 s1| |].
Qed.

End Dispatch.

Lemma directive_priority_witness :
  process_line Sample.externals Site.cfg (fun _ => ret EmptyString) 1
    "<!-- a = b -->{{zz}}" EmptyString (init ∅)
  = Ok EmptyString (with_assign (<[ "a" := "b" ]> (assign_dict (init ∅))) (init ∅)).
Proof.
  apply (proj1 (directive_priority Sample.externals Site.cfg (fun _ => ret EmptyString) 1
                  "<!-- a = b -->{{zz}}" EmptyString (init ∅) (or_introl eq_refl))).
  reflexivity.
Defined.

Section AssetsOnce.

Variable X : Externals.
Variable C : Config.

(** C9: the stylesheet and the script pipeline share [built_dict].  Once
    [compile_css f] has returned, [compile_js f] returns [False] in every
    state the run reaches afterwards and leaves that state as it is: no file
    is read, none is written; a script line for [f] met later only logs and
    writes its tag.  The same holds with the two exchanged. *)
Theorem css_js_share_built_dict (f : string) (s : state) (b : bool)
    (s1 s2 : state) :
  rtc (run_step X C) s1 s2 ->
  (compile_css X C f s = Ok b s1 ->
   compile_js X C f s2 = Ok false s2
   /\ (forall self_compile fuel line html,
         has_marker line -> ASSIGN X line = None -> INCLUDE X line = None ->
         CSS X line = None -> JS X line = Some f ->
         process_line X C self_compile fuel line html s2
         = Ok (html +:+ js_tag X C f)
              (logged s2 [EvLog Info ("~ Minimizing JS: " +:+ f)])))
  /\ (compile_js X C f s = Ok b s1 ->
      compile_css X C f s2 = Ok false s2
      /\ (forall self_compile fuel line html,
            has_marker line -> ASSIGN X line = None -> INCLUDE X line = None ->
            CSS X line = Some f ->
            process_line X C self_compile fuel line html s2
            = Ok (html +:+ css_tag X C f)
                 (logged s2 [EvLog Info ("Minimizing CSS: " +:+ f)]))).
Proof.
  intros Hrun. destruct (run_extends X C s1 s2 Hrun) as [Hsub _].
  split; intros H.
  - assert (Hin : f ∈ built_dict s2).
    { apply Hsub. eapply compile_css_built; exact H. }
    split; [now apply compile_js_cached|].
    intros self_compile fuel line html Hm Ha Hi Hc Hj.
    rewrite (process_line_js X C) with (f := f) by assumption.
    now rewrite compile_js_cached.
  - assert (Hin : f ∈ built_dict s2).
    { apply Hsub. eapply compile_js_built; exact H. }
    split; [now apply compile_css_cached|].
    intros self_compile fuel line html Hm Ha Hi Hc.
    rewrite (process_line_css X C) with (f := f) by assumption.
    now rewrite compile_css_cached.
Qed.

(** C6: once [compile_css] or [compile_js] has processed [f], the name
    stays in [built_dict] for the rest of the run, whatever is compiled,
    logged, written or stored afterwards and at whatever depth of includes,
    and every later request for [f], in whatever state the run has reached,
    returns [False] with the state untouched: no read, no minification, no
    write.  A stylesheet or
    script line still puts its reference tag into the output, and so does
    a line whose call did the work. *)
Theorem asset_processed_once (f : string) (s : state) (b : bool)
    (s1 s2 : state) :
  compile_css X C f s = Ok b s1 \/ compile_js X C f s = Ok b s1 ->
  rtc (run_step X C) s1 s2 ->
  built_dict s1 ⊆ built_dict s2
  /\ compile_css X C f s2 = Ok false s2
  /\ compile_js X C f s2 = Ok false s2
  /\ (forall self_compile fuel line html,
        has_marker line -> ASSIGN X line = None -> INCLUDE X line = None ->
        (CSS X line = Some f ->
         process_line X C self_compile fuel line html s2
         = Ok (html +:+ css_tag X C f)
              (logged s2 [EvLog Info ("Minimizing CSS: " +:+ f)]))
        /\ (CSS X line = None -> JS X line = Some f ->
            process_line X C self_compile fuel line html s2
            = Ok (html +:+ js_tag X C f)
                 (logged s2 [EvLog Info ("~ Minimizing JS: " +:+ f)])))
  /\ (forall self_compile fuel line html g s0 b' s',
        has_marker line -> ASSIGN X line = None -> INCLUDE X line = None ->
        (CSS X line = Some g ->
         compile_css X C g (logged s0 [EvLog Info ("Minimizing CSS: " +:+ g)])
           = Ok b' s' ->
         process_line X C self_compile fuel line html s0
         = Ok (html +:+ css_tag X C g) s')
        /\ (CSS X line = None -> JS X line = Some g ->
            compile_js X C g (logged s0 [EvLog Info ("~ Minimizing JS: " +:+ g)])
              = Ok b' s' ->
            process_line X C self_compile fuel line html s0
            = Ok (html +:+ js_tag X C g) s')).
Proof.
  intros Hfirst Hrun.
  assert (Hin1 : f ∈ built_dict s1).
  { destruct Hfirst as [H|H].
    - eapply compile_css_built; exact H.
    - eapply compile_js_built; exact H. }
  destruct (run_extends X C s1 s2 Hrun) as [Hsub _].
  assert (Hin2 : f ∈ built_dict s2) by (apply Hsub; exact Hin1).
  split; [exact Hsub|].
  split; [now apply compile_css_cached|].
  split; [now apply compile_js_cached|].
  split.
  - intros self_compile fuel line html Hm Ha Hi. split.
    + intros Hc. rewrite (process_line_css X C) with (f := f) by assumption.
      now rewrite compile_css_cached.
    + intros Hc Hj. rewrite (process_line_js X C) with (f := f) by assumption.
      now rewrite compile_js_cached.
  - intros self_compile fuel line html g s0 b' s' Hm Ha Hi. split.
    + intros Hc Hw. rewrite (process_line_css X C) with (f := g) by assumption.
      now rewrite Hw.
    + intros Hc Hj Hw. rewrite (process_line_js X C) with (f := g) by assumption.
      now rewrite Hw.
Qed.

End AssetsOnce.

Lemma asset_processed_once_witness :
  compile_css Sample.externals Site.cfg "site.css"
    (logged Site.css_built [EvLog Info "Including HTML: footer.html"])
  = Ok false (logged Site.css_built [EvLog Info "Including HTML: footer.html"])
  /\ process_line Sample.externals Site.cfg (fun _ => ret EmptyString) 1
       Site.css_line EmptyString
       (logged Site.css_built [EvLog Info "Including HTML: footer.html"])
     = Ok (css_tag Sample.externals Site.cfg "site.css")
          (logged
             (logged Site.css_built [EvLog Info "Including HTML: footer.html"])
             [EvLog Info "Minimizing CSS: site.css"]).
Proof.
  assert (H : compile_css Sample.externals Site.cfg "site.css"
                (init Site.page_files) = Ok true Site.css_built
              \/ compile_js Sample.externals Site.cfg "site.css"
                   (init Site.page_files) = Ok true Site.css_built)
    by (left; vm_compute; reflexivity).
  destruct (asset_processed_once Sample.externals Site.cfg "site.css"
              (init Site.page_files) true Site.css_built
              (logged Site.css_built [EvLog Info "Including HTML: footer.html"])
              H (rtc_once _ _ (step_logged _ _ _ _)))
    as (_ & Hcss & _ & Htag & _).
  split; [exact Hcss|].
  apply (proj1 (Htag (fun _ => ret EmptyString) 1 Site.css_line EmptyString
                  (or_introl eq_refl) eq_refl eq_refl)).
  reflexivity.
Defined.

Lemma css_js_share_built_dict_witness :
  compile_css Sample.externals Site.cfg "site.css" (init Site.page_files)
  = Ok true Site.css_built
  /\ compile_js Sample.externals Site.cfg "site.css"
       (logged Site.css_built [EvLog Info "~ Minimizing JS: site.css"])
     = Ok false (logged Site.css_built [EvLog Info "~ Minimizing JS: site.css"]).
Proof.
  split; [vm_compute; reflexivity|].
  apply (proj1 (css_js_share_built_dict Sample.externals Site.cfg "site.css"
                  (init Site.page_files) true Site.css_built
                  (logged Site.css_built
                     [EvLog Info "~ Minimizing JS: site.css"])
                  (rtc_once _ _ (step_logged _ _ _ _)))).
  vm_compute; reflexivity.
Defined.

(** ** Publication and art embeds *)

Lemma compile_item_keeps_cache (X : Externals) (c : collection) (f : string)
    (s : state) (html : string) (s' : state) :
  compile_item X c f s = Ok html s' -> built_html s' = built_html s.
Proof.
  unfold compile_item. destruct (built_html s !! f) as [cached|].
  - intros H. now inversion H.
  - intros H. apply bind_ok in H as (lines & s1 & Hread & H).
    unfold read_lines in Hread. destruct (files s !! f); [|discriminate].
    inversion Hread; subst. destruct (Py.readlines s0); [discriminate|].
    inversion H; subst. reflexivity.
Qed.

(** An embed whose path is a key of [built_html] returns the entry and
    touches nothing. *)
Lemma compile_item_cached (X : Externals) (c : collection) (f : string)
    (s : state) (html : string) :
  built_html s !! f = Some html -> compile_item X c f s = Ok html s.
Proof. intros H. unfold compile_item. now rewrite H. Qed.

(** C7: the code on a page that embeds [pubs.html] twice.  The second embed
    reads the sub-file again and calls [fill_templates] again: an embed
    looks its file up in [built_html] and never stores its rendering there,
    so after the run only the page itself is cached. *)
Lemma publication_embedded_twice :
  compile Sample.externals Site.cfg 2 "index.html" false
    (init Site.publication_files)
  = Ok ("item" +:+ Site.nl +:+ "item" +:+ Site.nl) Site.publication_compiled
  /\ built_html Site.publication_compiled !! "templates/pubs.html" = None
  /\ trace Site.publication_compiled
     = [EvRead "templates/index.html";
        EvRead "templates/pubs.html";
        EvFill Papers ["a"; "b"] ["item" +:+ Site.nl];
        EvRead "templates/pubs.html";
        EvFill Papers ["a"; "b"] ["item" +:+ Site.nl]].
Proof. repeat split; vm_compute; reflexivity. Qed.

(** ** Termination of [parse_variable] *)

Section ReplaceCount.

Variable c : ascii.
Variable new : string.
Hypothesis new_free : Py.count c new = 0.

Lemma count_drop_le (n : nat) (s : string) :
  Py.count c (Py.drop n s) <= Py.count c s.
Proof.
  revert s; induction n as [|n IH]; intros [|a s]; simpl; try lia.
  specialize (IH s). lia.
Qed.

Lemma count_replace_from_le (old s : string) :
  forall k, Py.count c (Py.replace_from old new s k) <= Py.count c (Py.drop k s).
Proof.
  induction s as [|a s IH]; intros k.
  - destruct k; simpl; lia.
  - destruct k as [|k]; [|apply IH].
    cbn [Py.replace_from Py.drop].
    destruct (Py.startswith old (String a s)).
    + rewrite count_append, new_free.
      specialize (IH (String.length old - 1)).
      pose proof (count_drop_le (String.length old - 1) s). simpl. lia.
    + specialize (IH 0). simpl in *. lia.
Qed.

(** Replacing at the head of the string: the occurrence is gone. *)
Lemma count_replace_head (y : ascii) (old' s : string) :
  Py.startswith (String y old') s = true ->
  0 < Py.count c (String y old') ->
  Py.count c (Py.replace_from (String y old') new s 0) < Py.count c s.
Proof.
  intros Hs Hold. destruct s as [|x s']; [discriminate|].
  cbn [Py.replace_from]. rewrite Hs, count_append, new_free.
  pose proof (count_replace_from_le (String y old') s'
                (String.length (String y old') - 1)) as Hle.
  apply startswith_split in Hs. apply (f_equal (Py.count c)) in Hs.
  rewrite count_append in Hs.
  cbn [String.length Py.drop] in Hs, Hle |- *.
  rewrite Nat.sub_succ, Nat.sub_0_r in Hle |- *. lia.
Qed.

Lemma count_replace_from_lt (y : ascii) (old' a b : string) :
  0 < Py.count c (String y old') ->
  Py.count c (Py.replace_from (String y old') new (a +:+ String y old' +:+ b) 0)
  < Py.count c (a +:+ String y old' +:+ b).
Proof.
  intros Hold. induction a as [|x a IH].
  - apply count_replace_head; [|exact Hold].
    change (EmptyString +:+ String y old' +:+ b) with (String y old' +:+ b).
    apply startswith_append.
  - destruct (Py.startswith (String y old') (String x a +:+ String y old' +:+ b))
      eqn:Hs.
    + now apply count_replace_head.
    + change (String x a +:+ String y old' +:+ b)
        with (String x (a +:+ String y old' +:+ b)) in *.
      cbn [Py.replace_from]. rewrite Hs. simpl. simpl in IH. lia.
Qed.

Lemma count_replace_lt (old a b : string) :
  0 < Py.count c old ->
  Py.count c (Py.replace old new (a +:+ old +:+ b)) < Py.count c (a +:+ old +:+ b).
Proof.
  intros Hold. destruct old as [|y old']; [simpl in Hold; lia|].
  now apply count_replace_from_lt.
Qed.

End ReplaceCount.

Section Termination.

Variable X : Externals.
Variable C : Config.

(** What the statement needs of [Regex.VARIABLE]: the text of a match is a
    piece of the line and has an opening brace in it. *)
Hypothesis match_in_line :
  forall line g0 g1,
    VARIABLE X line = Some (g0, g1) ->
    (exists a b, line = a +:+ g0 +:+ b) /\ 0 < Py.count brace g0.

(** No text of a catalog has an opening brace left after [parse_markdown]. *)
Hypothesis values_without_brace :
  forall (language : catalog) (name value : string),
    language = lang_current C \/ language = lang_en C \/ language = lang_cn C ->
    language !! name = Some value ->
    Py.count brace (parse_markdown X value) = 0.

Lemma force_language_catalog (variable name : string) (language : catalog) :
  force_language C variable = (language, name) ->
  language = lang_current C \/ language = lang_en C \/ language = lang_cn C.
Proof.
  unfold force_language.
  destruct (String.eqb (Py.last_n 3 variable) "_cn");
    [|destruct (Py.contains "_en" variable)];
    intros H; inversion H; subst; auto.
Qed.

Lemma substitution_decreases (line g0 g1 name value : string)
    (language : catalog) :
  VARIABLE X line = Some (g0, g1) ->
  language = lang_current C \/ language = lang_en C \/ language = lang_cn C ->
  language !! name = Some value ->
  Py.count brace (Py.replace g0 (parse_markdown X value) line)
  < Py.count brace line.
Proof.
  intros Hv Hl Hn. destruct (match_in_line _ _ _ Hv) as [(a & b & ->) Hpos].
  apply count_replace_lt; [|exact Hpos].
  eapply values_without_brace; eassumption.
Qed.

Lemma parse_variable_returns (fuel : nat) :
  forall line s, Py.count brace line <= fuel ->
    exists out s', parse_variable X C fuel line s = Ok out s'.
Proof.
  induction fuel as [|fuel IH]; intros line s Hle; simpl;
    destruct (VARIABLE X line) as [[g0 g1]|] eqn:Hv;
    try (now exists line, s).
  - destruct (match_in_line _ _ _ Hv) as [(a & b & ->) Hpos].
    rewrite !count_append in Hle. lia.
  - destruct (force_language C (redirect (assign_dict s) g1))
      as [language name] eqn:Hf.
    pose proof (force_language_catalog _ _ _ Hf) as Hcat.
    destruct (language !! name) as [value|] eqn:Hl.
    + apply IH.
      pose proof (substitution_decreases _ _ _ _ _ _ Hv Hcat Hl). lia.
    + unfold bind, log, emit.
      destruct (lang_en C !! name) as [value|] eqn:He.
      * apply IH.
        assert (Hen : lang_en C = lang_current C \/ lang_en C = lang_en C
                      \/ lang_en C = lang_cn C) by auto.
        pose proof (substitution_decreases _ _ _ _ _ _ Hv Hen He). lia.
      * now eexists _, _.
Qed.

(** C10 (as amended): [parse_variable] returns on every line when no text
    of a catalog has an opening brace left after [parse_markdown]: every
    substitution then strictly reduces the number of opening braces in the
    line, so as many iterations as the line has opening braces are
    enough. *)
Theorem parse_variable_terminates (line : string) (s : state) :
  (exists out s',
      parse_variable X C (Py.count brace line) line s = Ok out s')
  /\ (forall g0 g1 name value (language : catalog),
        VARIABLE X line = Some (g0, g1) ->
        force_language C (redirect (assign_dict s) g1) = (language, name) ->
        language !! name = Some value
        \/ (language !! name = None /\ lang_en C !! name = Some value) ->
        Py.count brace (Py.replace g0 (parse_markdown X value) line)
        < Py.count brace line).
Proof.
  split.
  - now apply parse_variable_returns.
  - intros g0 g1 name value language Hv Hf [Hl | [_ He]].
    + eapply substitution_decreases; [exact Hv | | exact Hl].
      eapply force_language_catalog; exact Hf.
    + eapply substitution_decreases; [exact Hv | | exact He]. auto.
Qed.

End Termination.

(** *** The sample pattern *)

Lemma take_word_split (s w r : string) :
  Sample.take_word s = (w, r) -> s = w +:+ r.
Proof.
  revert w r; induction s as [|a s IH]; simpl; intros w r H.
  - now inversion H.
  - destruct (Sample.is_word a).
    + destruct (Sample.take_word s) as [w' r'].
      inversion H; subst. simpl. f_equal. now apply IH.
    + now inversion H.
Qed.

Lemma expect_split (lit s r : string) :
  Sample.expect lit s = Some r -> s = lit +:+ r.
Proof.
  unfold Sample.expect. destruct (Py.startswith lit s) eqn:Hs; [|discriminate].
  intros H; inversion H; subst. now apply startswith_split.
Qed.

Lemma variable_here_shape (s g0 g1 : string) :
  Sample.variable_here s = Some (g0, g1) ->
  g0 = "{{" +:+ g1 +:+ "}}" /\ exists b, s = g0 +:+ b.
Proof.
  unfold Sample.variable_here.
  destruct (Sample.expect "{{" s) as [r|] eqn:He; [|discriminate].
  destruct (Sample.take_word r) as [w r'] eqn:Hw.
  destruct w as [|x w]; [discriminate|].
  destruct (Sample.expect "}}" r') as [rest|] eqn:He'; [|discriminate].
  intros H; inversion H; subst. split; [reflexivity|].
  exists rest. apply expect_split in He, He'. apply take_word_split in Hw.
  subst. simpl. now rewrite append_assoc.
Qed.

Lemma search_split {A : Type} (here : string -> option A) (s : string) (m : A) :
  Sample.search here s = Some m -> exists a t, s = a +:+ t /\ here t = Some m.
Proof.
  induction s as [|x s IH]; simpl.
  - destruct (here EmptyString) eqn:H; [|discriminate].
    intros E; inversion E; subst. now exists EmptyString, EmptyString.
  - destruct (here (String x s)) eqn:H.
    + intros E; inversion E; subst. now exists EmptyString, (String x s).
    + intros E. destruct (IH E) as (a & t & -> & Ht).
      now exists (String x a), t.
Qed.

Lemma variable_re_in_line (line g0 g1 : string) :
  VARIABLE Sample.externals line = Some (g0, g1) ->
  (exists a b, line = a +:+ g0 +:+ b) /\ 0 < Py.count brace g0.
Proof.
  intros H. apply search_split in H as (a & t & -> & Ht).
  apply variable_here_shape in Ht as [-> [b ->]].
  split; [now exists a, b | simpl; lia].
Qed.

Lemma site_values_without_brace (language : catalog) (name value : string) :
  language = lang_current Site.cfg \/ language = lang_en Site.cfg
  \/ language = lang_cn Site.cfg ->
  language !! name = Some value ->
  Py.count brace (parse_markdown Sample.externals value) = 0.
Proof.
  intros [-> | [-> | ->]] H; simpl in H; unfold Sample.cat_a in H.
  - apply lookup_singleton_Some in H as [_ <-]. reflexivity.
  - apply lookup_singleton_Some in H as [_ <-]. reflexivity.
  - now rewrite lookup_empty in H.
Qed.

Lemma parse_variable_terminates_witness :
  (exists out s',
      parse_variable Sample.externals Site.cfg
        (Py.count brace "{{a}} and {{a}}") "{{a}} and {{a}}" (init ∅)
      = Ok out s')
  /\ (forall g0 g1 name value (language : catalog),
        VARIABLE Sample.externals "{{a}} and {{a}}" = Some (g0, g1) ->
        force_language Site.cfg (redirect (assign_dict (init ∅)) g1)
          = (language, name) ->
        language !! name = Some value
        \/ (language !! name = None /\ lang_en Site.cfg !! name = Some value) ->
        Py.count brace
          (Py.replace g0 (parse_markdown Sample.externals value) "{{a}} and {{a}}")
        < Py.count brace "{{a}} and {{a}}").
Proof.
  apply (parse_variable_terminates Sample.externals Site.cfg
           variable_re_in_line site_values_without_brace
           "{{a}} and {{a}}" (init ∅)).
Defined.

(** *** A line on which [parse_variable] never returns *)

Section Forever.

Let X := Sample.externals.
Let C := Site.cfg_braces.

Lemma search_closers (p : nat) (s : string) :
  VARIABLE X (Site.closers p s) = VARIABLE X s.
Proof. induction p as [|p IH]; simpl; [reflexivity | exact IH]. Qed.

Lemma search_line_a (p q : nat) :
  VARIABLE X (Site.line_a p q) = Some ("{{a}}", "a").
Proof. unfold Site.line_a. rewrite search_closers. reflexivity. Qed.

Lemma search_line_b (p q : nat) :
  VARIABLE X (Site.line_b p q) = Some ("{{a}}", "a").
Proof. unfold Site.line_b. rewrite search_closers. reflexivity. Qed.

Lemma replace_closers (p : nat) (s : string) :
  Py.replace "{{a}}" Site.braces (Site.closers p s)
  = Site.closers p (Py.replace "{{a}}" Site.braces s).
Proof.
  induction p as [|p IH]; simpl; [reflexivity|].
  unfold Py.replace in IH. now rewrite IH.
Qed.

Lemma startswith_openers (q : nat) :
  Py.startswith "}}" (Site.openers q) = false.
Proof. now destruct q. Qed.

Lemma replace_from_cons (old new : string) (c : ascii) (s : string) :
  Py.replace_from old new (String c s) 0
  = if Py.startswith old (String c s)
    then new +:+ Py.replace_from old new s (String.length old - 1)
    else String c (Py.replace_from old new s 0).
Proof. reflexivity. Qed.

(** An unfinished reference is copied. *)
Lemma replace_opener (t : string) :
  Py.startswith "}}" t = false ->
  Py.replace_from "{{a}}" Site.braces ("{{a" +:+ t) 0
  = "{{a" +:+ Py.replace_from "{{a}}" Site.braces t 0.
Proof.
  intros Ht.
  change ("{{a" +:+ t) with (String "{" (String "{" (String "a" t))).
  rewrite replace_from_cons.
  assert (H1 : Py.startswith "{{a}}" (String "{" (String "{" (String "a" t)))
               = Py.startswith "}}" t) by reflexivity.
  rewrite H1, Ht, replace_from_cons.
  assert (H2 : Py.startswith "{{a}}" (String "{" (String "a" t)) = false)
    by reflexivity.
  rewrite H2, replace_from_cons.
  assert (H3 : Py.startswith "{{a}}" (String "a" t) = false) by reflexivity.
  rewrite H3. reflexivity.
Qed.

Lemma replace_openers (q : nat) :
  Py.replace "{{a}}" Site.braces (Site.openers q) = Site.openers q.
Proof.
  unfold Py.replace. induction q as [|q IH]; [reflexivity|].
  cbn [Site.openers]. rewrite replace_opener by apply startswith_openers.
  now rewrite IH.
Qed.

Lemma closers_shift (p : nat) (s : string) :
  Site.closers p ("}}" +:+ s) = "}}" +:+ Site.closers p s.
Proof. induction p as [|p IH]; simpl in *; [reflexivity | now rewrite IH]. Qed.

Lemma replace_line_a (p q : nat) :
  Py.replace "{{a}}" Site.braces (Site.line_a p q) = Site.line_b (S (S p)) q.
Proof.
  unfold Site.line_a, Site.line_b. rewrite replace_closers.
  replace (Py.replace "{{a}}" Site.braces ("{{a}}}}" +:+ Site.openers q))
    with ("}}" +:+ "}}" +:+ "{{a{{a}}" +:+ Site.openers q).
  - now rewrite !closers_shift.
  - pose proof (replace_openers q) as H. unfold Py.replace in *. simpl.
    now rewrite H.
Qed.

Lemma replace_line_b (p q : nat) :
  Py.replace "{{a}}" Site.braces (Site.line_b p q) = Site.line_a p (S (S q)).
Proof.
  unfold Site.line_a, Site.line_b. rewrite replace_closers. f_equal.
  pose proof (replace_openers q) as H. unfold Py.replace in *. simpl.
  now rewrite H.
Qed.

Lemma parse_variable_step (fuel : nat) (line : string) :
  VARIABLE X line = Some ("{{a}}", "a") ->
  parse_variable X C (S fuel) line (init ∅)
  = parse_variable X C fuel (Py.replace "{{a}}" Site.braces line) (init ∅).
Proof.
  intros Hv.
  rewrite (parse_variable_found X C fuel line (init ∅) "{{a}}" "a" "a"
             Site.braces Site.cat_braces Hv);
    [|vm_compute; reflexivity|vm_compute; reflexivity].
  replace (parse_markdown X Site.braces) with Site.braces
    by (vm_compute; reflexivity).
  reflexivity.
Qed.

Lemma parse_variable_stuck (fuel : nat) :
  forall p q,
    parse_variable X C fuel (Site.line_a p q) (init ∅) = OutOfFuel
    /\ parse_variable X C fuel (Site.line_b p q) (init ∅) = OutOfFuel.
Proof.
  induction fuel as [|fuel IH]; intros p q.
  - simpl. now rewrite search_line_a, search_line_b.
  - rewrite !parse_variable_step by (apply search_line_a || apply search_line_b).
    rewrite replace_line_a, replace_line_b. split; apply IH.
Qed.

End Forever.

(** C10 (as stated) fails: the only text of the catalogs holds no reference
    after [parse_markdown], yet resolution of the line [{{a}}}}] never
    returns, whatever the number of iterations allowed: the braces of the
    text and the braces around it form the reference [{{a}}] again. *)
Lemma parse_variable_never_returns :
  (forall (language : catalog) (name value : string),
      language = lang_current Site.cfg_braces
      \/ language = lang_en Site.cfg_braces
      \/ language = lang_cn Site.cfg_braces ->
      language !! name = Some value ->
      VARIABLE Sample.externals (parse_markdown Sample.externals value) = None)
  /\ (forall fuel,
        parse_variable Sample.externals Site.cfg_braces fuel "{{a}}}}" (init ∅)
        = OutOfFuel).
Proof.
  split.
  - intros language name value [-> | [-> | ->]] H; simpl in H.
    + unfold Site.cat_braces in H.
      apply lookup_singleton_Some in H as [_ <-]. vm_compute; reflexivity.
    + now rewrite lookup_empty in H.
    + now rewrite lookup_empty in H.
  - intros fuel. exact (proj1 (parse_variable_stuck fuel 0 0)).
Qed.

(** * Further properties of the code *)

(** ** Strings *)

Lemma join_readlines (s : string) : Py.join (Py.readlines s) = s.
Proof.
  induction s as [|a s IH]; [reflexivity|]. simpl.
  destruct (Ascii.eqb a Py.newline).
  - simpl. now rewrite <- IH at 2.
  - destruct (Py.readlines s) as [|h t].
    + simpl in *. now rewrite <- IH.
    + simpl in *. now rewrite <- IH.
Qed.

Lemma contains_append_intro (sub a b : string) :
  Py.contains sub (a +:+ sub +:+ b) = true.
Proof.
  induction a as [|x a IH].
  - change (EmptyString +:+ sub +:+ b) with (sub +:+ b).
    destruct (sub +:+ b) eqn:E; simpl; rewrite <- E, startswith_append; reflexivity.
  - change (String x a +:+ sub +:+ b) with (String x (a +:+ sub +:+ b)).
    simpl. rewrite IH. now destruct (Py.startswith sub _).
Qed.



Lemma last_n_append (a b : string) :
  Py.last_n (String.length b) (a +:+ b) = b.
Proof.
  unfold Py.last_n. rewrite append_length.
  replace (String.length a + String.length b - String.length b)
    with (String.length a) by lia.
  apply drop_append.
Qed.

Lemma drop_last_append (a b : string) :
  Py.drop_last (String.length b) (a +:+ b) = a.
Proof.
  unfold Py.drop_last. rewrite append_length.
  replace (String.length a + String.length b - String.length b)
    with (String.length a) by lia.
  apply take_append.
Qed.

(** ** Language forcing *)

(** X1: a name that ends in [_cn] is looked up in [Lang.cn] and a name that
    ends in [_en] in [Lang.en], in both cases without its last three
    characters, whatever [Lang.current] is. *)
Theorem force_language_suffix (C : Config) (base : string) :
  force_language C (base +:+ "_cn") = (lang_cn C, base)
  /\ force_language C (base +:+ "_en") = (lang_en C, base).
Proof.
  unfold force_language. split.
  - pose proof (last_n_append base "_cn") as H1.
    pose proof (drop_last_append base "_cn") as H2.
    cbn [String.length] in H1, H2. now rewrite H1, H2.
  - pose proof (last_n_append base "_en") as H1.
    pose proof (drop_last_append base "_en") as H2.
    pose proof (contains_append_intro "_en" base EmptyString) as H3.
    change ("_en" +:+ EmptyString) with "_en" in H3.
    cbn [String.length] in H1, H2. now rewrite H1, H2, H3.
Qed.

(** ** [parse_variable] and the embeds change nothing but the log *)

Section ReadOnly.

Variable X : Externals.
Variable C : Config.

(** X2: [parse_variable] never raises, and when it returns the compiler is
    as it was but for the log records added: the assignment table, the two
    caches and the files are untouched. *)
Theorem parse_variable_only_logs (fuel : nat) (line : string) (s : state) :
  match parse_variable X C fuel line s with
  | Ok _ s' => exists evs, s' = logged s evs
  | Raise _ _ => False
  | OutOfFuel => True
  end.
Proof.
  revert line s. induction fuel as [|fuel IH]; intros line s; simpl;
    destruct (VARIABLE X line) as [[g0 g1]|]; try exact I;
    try (exists []; now rewrite logged_nil).
  destruct (force_language C (redirect (assign_dict s) g1)) as [language name].
  destruct (language !! name).
  - apply IH.
  - unfold bind, log, emit. destruct (lang_en C !! name).
    + specialize (IH (Py.replace g0 (parse_markdown X s0) line)
                     (logged s [warning_missing name])).
      fold (warning_missing name).
      destruct (parse_variable X C fuel _ _) as [out s'| |]; try assumption.
      destruct IH as [evs ->]. rewrite logged_logged. now eexists.
    + unfold ret. rewrite logged_logged. now eexists.
Qed.

(** X3: resolution is idempotent.  Resolving a line that [parse_variable]
    has returned gives the same line back, whether it was fully resolved or
    left at a missing variable. *)
Theorem parse_variable_idempotent (fuel : nat) (line : string) (s : state)
    (out : string) (s' : state) :
  parse_variable X C fuel line s = Ok out s' ->
  forall fuel', exists evs,
    parse_variable X C (S fuel') out s' = Ok out (logged s' evs).
Proof.
  intros H fuel'. apply parse_variable_result in H as (evs & -> & Hcases).
  destruct Hcases as [[Hnone _] | Hstop].
  - exists []. rewrite logged_nil. now apply parse_variable_no_reference.
  - destruct Hstop as (g0 & g1 & language & name & evs0 & Hv & Hf & Hl & He & _ & _).
    exists [warning_missing name; error_missing name].
    now apply parse_variable_miss with (g0 := g0) (g1 := g1) (language := language).
Qed.

(** X4: a publication or art embed never raises for lack of fuel and, however
    it ends, changes nothing but the log: in particular it stores nothing in
    [built_html]. *)
Theorem compile_item_only_logs (c : collection) (f : string) (s : state) :
  match compile_item X c f s with
  | Ok _ s' | Raise _ s' => exists evs, s' = logged s evs
  | OutOfFuel => False
  end.
Proof.
  unfold compile_item. destruct (built_html s !! f).
  - exists []. now rewrite logged_nil.
  - unfold bind, read_lines. destruct (files s !! f) as [content|].
    + unfold bind, emit, ret. destruct (Py.readlines content).
      * unfold raise. now eexists.
      * unfold fill_templates, bind, emit, ret. rewrite logged_logged. now eexists.
    + exists []. now rewrite logged_nil.
Qed.

(** An embed of an empty sub-file. *)
Lemma compile_item_empty (c : collection) (f : string) (s : state) :
  built_html s !! f = None ->
  files s !! f = Some EmptyString ->
  compile_item X c f s = Raise IndexError (logged s [EvRead f]).
Proof.
  intros Hc Hf. unfold compile_item. rewrite Hc.
  unfold bind, read_lines. now rewrite Hf.
Qed.

End ReadOnly.

Lemma parse_variable_idempotent_witness :
  exists evs,
    parse_variable Sample.externals Site.cfg 1 "X and {{zz}} tail"
      (logged (init ∅) [warning_missing "zz"; error_missing "zz"])
    = Ok "X and {{zz}} tail"
         (logged (logged (init ∅) [warning_missing "zz"; error_missing "zz"]) evs).
Proof.
  refine (parse_variable_idempotent Sample.externals Site.cfg 5
            "{{a}} and {{zz}} tail" (init ∅) "X and {{zz}} tail"
            (logged (init ∅) [warning_missing "zz"; error_missing "zz"]) _ 0).
  vm_compute; reflexivity.
Defined.

(** ** Missing sources *)

Section Missing.

Variable X : Externals.
Variable C : Config.

Lemma compile_missing_source_at (fuel : nat) (f : string) (w : bool) (s : state) :
  built_html s !! f = None ->
  files s !! path_join X (dir_templates C) f = None ->
  compile X C (S fuel) f w s
  = Raise (FileNotFoundError (path_join X (dir_templates C) f)) s.
Proof.
  intros Hc Hf. simpl. rewrite Hc. unfold bind, read_lines. now rewrite Hf.
Qed.

(** An asset whose source does not exist. *)
Lemma asset_missing (f : string) (s : state) :
  f ∉ built_dict s ->
  (files s !! path_join3 X (dir_templates C) (dir_css C) f = None ->
   compile_css X C f s
   = Raise (FileNotFoundError (path_join3 X (dir_templates C) (dir_css C) f)) s)
  /\ (files s !! path_join3 X (dir_templates C) (dir_js C) f = None ->
      compile_js X C f s
      = Raise (FileNotFoundError (path_join3 X (dir_templates C) (dir_js C) f)) s).
Proof.
  intros Hout. split; intros Hf.
  - unfold compile_css. rewrite decide_False by assumption.
    unfold bind, read_lines. now rewrite Hf.
  - unfold compile_js. rewrite decide_False by assumption.
    unfold bind, read_lines. now rewrite Hf.
Qed.

(** An asset whose source exists. *)
Lemma asset_present (f content : string) (s : state) :
  f ∉ built_dict s ->
  (files s !! path_join3 X (dir_templates C) (dir_css C) f = Some content ->
   compile_css X C f s
   = Ok true (asset_built s f
                (path_join3 X (dir_templates C) (dir_css C) f)
                (path_join3 X (dir_builds C) (dir_css C) f)
                (asset_output (minimize_css C) (csscompress X) f content)))
  /\ (files s !! path_join3 X (dir_templates C) (dir_js C) f = Some content ->
      compile_js X C f s
      = Ok true (asset_built s f
                   (path_join3 X (dir_templates C) (dir_js C) f)
                   (path_join3 X (dir_builds C) (dir_js C) f)
                   (asset_output (minimize_js C) (jsmin X) f content)))
  /\ (Py.contains ".min." f = true ->
      asset_output (minimize_css C) (csscompress X) f content = content
      /\ asset_output (minimize_js C) (jsmin X) f content = content).
Proof.
  intros Hout. split; [|split].
  - intros Hf. unfold compile_css. rewrite decide_False by assumption.
    unfold bind, read_lines. rewrite Hf.
    unfold bind, emit, ret, write_file, add_built, asset_built, asset_output.
    simpl. rewrite join_readlines, <- app_assoc. reflexivity.
  - intros Hf. unfold compile_js. rewrite decide_False by assumption.
    unfold bind, read_lines. rewrite Hf.
    unfold bind, emit, ret, write_file, add_built, asset_built, asset_output.
    simpl. rewrite join_readlines, <- app_assoc. reflexivity.
  - intros Hmin. unfold asset_output. rewrite Hmin, !andb_false_r. now split.
Qed.

End Missing.

(** ** Whole files *)

Section WholeFiles.

Variable X : Externals.
Variable C : Config.



(** X5: when [compile] renders a file with [write_to_file] set, the text it
    returns, the text it caches and the contents of the output file are one
    and the same (the minified text when minification is on). *)
Theorem compile_writes_what_it_returns (fuel : nat) (f : string) (s : state)
    (html : string) (s' : state) :
  built_html s !! f = None ->
  compile X C fuel f true s = Ok html s' ->
  files s' !! path_join X (dir_builds C) f = Some html
  /\ built_html s' !! f = Some html.
Proof.
  intros Hc H. destruct fuel as [|fuel]; simpl in H; [discriminate|].
  rewrite Hc in H.
  apply bind_ok in H as (lines & s1 & _ & H).
  apply bind_ok in H as (html0 & s2 & _ & H).
  apply bind_ok in H as (html1 & s3 & Hw & H).
  apply bind_ok in Hw as (html2 & s4 & _ & Hw).
  apply bind_ok in Hw as ([] & s5 & Hwrite & Hret).
  apply bind_ok in H as ([] & s6 & Hset & H).
  inversion Hwrite; subst. inversion Hret; subst.
  inversion Hset; subst. inversion H; subst. simpl.
  split; apply lookup_insert_eq.
Qed.

(** X6: a file included twice is rendered once.  The second include line
    appends the text of the first again and reads nothing, whatever the
    first rendering did to the assignment table. *)
Theorem include_twice (fuel fuel' : nat) (line g html : string) (s : state)
    (h : string) (s1 : state) :
  has_marker line -> ASSIGN X line = None -> INCLUDE X line = Some g ->
  compile X C fuel g false (logged s [EvLog Info ("Including HTML: " +:+ g)])
  = Ok h s1 ->
  process_lines X C (fun f => compile X C fuel f false) fuel' [line; line] html s
  = Ok (html +:+ h +:+ h)
       (logged s1 [EvLog Info ("Including HTML: " +:+ g); reusing g]).
Proof.
  intros Hm Ha Hi H. pose proof (compile_stores X C _ _ _ _ _ _ H) as Hst.
  destruct fuel as [|fuel]; [discriminate|].
  cbn [process_lines]. unfold bind at 1. unfold process_line at 1.
  rewrite (not_fast_path _ Hm), Ha, Hi. unfold bind at 1. unfold log, emit.
  unfold bind at 1. rewrite H. unfold ret at 1.
  unfold bind at 1. unfold process_line.
  rewrite (not_fast_path _ Hm), Ha, Hi. unfold bind at 1. unfold log, emit.
  unfold bind at 1.
  rewrite (compile_cached X C fuel g false _ h) by exact Hst.
  unfold ret, bind. rewrite logged_logged, append_assoc. reflexivity.
Qed.

(** An include line whose file does not exist. *)
Lemma include_missing_at_line (fuel fuel' : nat) (line : string)
    (rest : list string) (g html : string) (s : state) :
  has_marker line -> ASSIGN X line = None -> INCLUDE X line = Some g ->
  built_html s !! g = None ->
  files s !! path_join X (dir_templates C) g = None ->
  process_lines X C (fun f => compile X C (S fuel) f false) fuel'
    (line :: rest) html s
  = Raise (FileNotFoundError (path_join X (dir_templates C) g))
          (logged s [EvLog Info ("Including HTML: " +:+ g)]).
Proof.
  intros Hm Ha Hi Hc Hf. cbn [process_lines]. unfold bind at 1.
  unfold process_line. rewrite (not_fast_path _ Hm), Ha, Hi.
  unfold bind at 1. unfold log, emit. unfold bind at 1.
  rewrite (compile_missing_source_at X C) by assumption. reflexivity.
Qed.

(** X7: an alias set on one line redirects a reference on the next.  The
    assignment line adds nothing to the output and replaces whatever the
    alias stood for before; the reference to the alias is resolved as a
    reference to its target, suffix forcing included. *)
Theorem redirection_resolves (self_compile : string -> M string) (fuel : nat)
    (l1 l2 html : string) (s : state) (lhs rhs g0 name value : string)
    (language : catalog) :
  has_marker l1 -> ASSIGN X l1 = Some (lhs, rhs) ->
  plain_line X l2 -> VARIABLE X l2 = Some (g0, lhs) ->
  force_language C rhs = (language, name) ->
  language !! name = Some value ->
  VARIABLE X (Py.replace g0 (parse_markdown X value) l2) = None ->
  process_lines X C self_compile (S fuel) [l1; l2] html s
  = Ok (html +:+ Py.replace g0 (parse_markdown X value) l2)
       (with_assign (<[lhs := rhs]> (assign_dict s)) s).
Proof.
  intros Hm Ha Hp Hv Hf Hl Hn. cbn [process_lines]. unfold bind at 1.
  unfold process_line at 1. rewrite (not_fast_path _ Hm), Ha.
  unfold bind at 1. unfold set_assign, ret at 1.
  unfold bind at 1. rewrite process_line_plain by exact Hp.
  rewrite (parse_variable_found X C fuel l2 _ g0 lhs name value language Hv).
  - rewrite parse_variable_no_reference by exact Hn. reflexivity.
  - unfold redirect. simpl. rewrite lookup_insert_eq. exact Hf.
  - exact Hl.
Qed.

End WholeFiles.

Lemma compile_writes_what_it_returns_witness :
  files
    (rendered "footer.html" "bye"
       {| assign_dict := ∅; built_dict := ∅; built_html := ∅;
          files := <[ "builds/footer.html" := "bye" ]> Pages.files;
          trace := [EvRead "templates/footer.html";
                    EvWrite "builds/footer.html" "bye"] |})
    !! "builds/footer.html" = Some "bye"
  /\ built_html
       (rendered "footer.html" "bye"
          {| assign_dict := ∅; built_dict := ∅; built_html := ∅;
             files := <[ "builds/footer.html" := "bye" ]> Pages.files;
             trace := [EvRead "templates/footer.html";
                       EvWrite "builds/footer.html" "bye"] |})
       !! "footer.html" = Some "bye".
Proof.
  apply (compile_writes_what_it_returns Sample.externals Site.cfg 1
           "footer.html" (init Pages.files) "bye");
    vm_compute; reflexivity.
Defined.

Lemma include_twice_witness :
  process_lines Sample.externals Site.cfg
    (fun f => compile Sample.externals Site.cfg 1 f false) 1
    [Pages.include_line; Pages.include_line] EmptyString (init Pages.files)
  = Ok (EmptyString +:+ "bye" +:+ "bye")
       (logged
          (rendered "footer.html" "bye"
             (logged (init Pages.files)
                [EvLog Info "Including HTML: footer.html";
                 EvRead "templates/footer.html"]))
          [EvLog Info "Including HTML: footer.html"; reusing "footer.html"]).
Proof.
  apply (include_twice Sample.externals Site.cfg 1 1 Pages.include_line
           "footer.html" EmptyString (init Pages.files) "bye").
  - left; reflexivity.
  - reflexivity.
  - reflexivity.
  - vm_compute; reflexivity.
Defined.

Lemma redirection_resolves_witness :
  process_lines Sample.externals Site.cfg (fun _ => ret EmptyString) 1
    ["<!-- t = a -->"; "{{t}}!"] EmptyString (init ∅)
  = Ok (EmptyString +:+ Py.replace "{{t}}" (parse_markdown Sample.externals "X")
                          "{{t}}!")
       (with_assign (<[ "t" := "a" ]> (assign_dict (init ∅))) (init ∅)).
Proof.
  apply (redirection_resolves Sample.externals Site.cfg (fun _ => ret EmptyString)
           0 "<!-- t = a -->" "{{t}}!" EmptyString (init ∅) "t" "a" "{{t}}"
           "a" "X" Sample.cat_a).
  - left; reflexivity.
  - reflexivity.
  - split; [right; reflexivity | repeat split; reflexivity].
  - reflexivity.
  - vm_compute; reflexivity.
  - vm_compute; reflexivity.
  - vm_compute; reflexivity.
Defined.

(** ** Reference tags *)

Lemma slashes_no_backslash (p : string) :
  Py.count Py.backslash (slashes p) = 0.
Proof.
  unfold slashes, Py.replace. induction p as [|c p IH]; [reflexivity|].
  cbn [Py.replace_from Py.startswith String.length].
  destruct (Ascii.eqb Py.backslash c) eqn:E.
  - cbn [Nat.sub]. rewrite count_append. cbn [Py.replace_from] in IH.
    simpl Py.count at 1. exact IH.
  - cbn [Py.count]. rewrite Ascii.eqb_sym, E. exact IH.
Qed.

(** X8: the reference tags written for a stylesheet and for a script hold
    no backslash: the path is normalised to forward slashes whatever
    [os.path.join] returns. *)
Theorem tags_without_backslash (X : Externals) (C : Config) (f : string) :
  Py.count Py.backslash (css_tag X C f) = 0
  /\ Py.count Py.backslash (js_tag X C f) = 0.
Proof.
  unfold css_tag, js_tag. split.
  - rewrite !count_append, slashes_no_backslash. reflexivity.
  - rewrite !count_append, slashes_no_backslash. reflexivity.
Qed.

(** ** Invariants of a run *)

Lemma post_weaken {A : Type} (m : M A) (s : state) (P Q : state -> Prop) :
  post m s P -> (forall s', P s' -> Q s') -> post m s Q.
Proof. unfold post. destruct (m s); auto. Qed.

(** What [compile_css] and [compile_js] can do, case by case. *)
Lemma compile_css_outcome (X : Externals) (C : Config) (f : string) (s : state) :
  compile_css X C f s = Ok false s
  \/ (exists path, compile_css X C f s = Raise (FileNotFoundError path) s)
  \/ (exists content,
        compile_css X C f s
        = Ok true (asset_built s f
                     (path_join3 X (dir_templates C) (dir_css C) f)
                     (path_join3 X (dir_builds C) (dir_css C) f) content)).
Proof.
  unfold compile_css. destruct (decide (f ∈ built_dict s)); [now left|]. right.
  unfold bind, read_lines.
  destruct (files s !! path_join3 X (dir_templates C) (dir_css C) f).
  - right. eexists. unfold bind, emit, ret, write_file, add_built, asset_built.
    simpl. rewrite <- app_assoc. reflexivity.
  - left. now eexists.
Qed.

Lemma compile_js_outcome (X : Externals) (C : Config) (f : string) (s : state) :
  compile_js X C f s = Ok false s
  \/ (exists path, compile_js X C f s = Raise (FileNotFoundError path) s)
  \/ (exists content,
        compile_js X C f s
        = Ok true (asset_built s f
                     (path_join3 X (dir_templates C) (dir_js C) f)
                     (path_join3 X (dir_builds C) (dir_js C) f) content)).
Proof.
  unfold compile_js. destruct (decide (f ∈ built_dict s)); [now left|]. right.
  unfold bind, read_lines.
  destruct (files s !! path_join3 X (dir_templates C) (dir_js C) f).
  - right. eexists. unfold bind, emit, ret, write_file, add_built, asset_built.
    simpl. rewrite <- app_assoc. reflexivity.
  - left. now eexists.
Qed.

Section Keeps.

Variable X : Externals.
Variable C : Config.
Variable R : state -> state -> Prop.

Hypothesis R_refl : forall s, R s s.
Hypothesis R_trans : forall s1 s2 s3, R s1 s2 -> R s2 s3 -> R s1 s3.
Hypothesis R_logged : forall s evs, R s (logged s evs).
Hypothesis R_assign :
  forall s lhs rhs, R s (with_assign (<[lhs := rhs]> (assign_dict s)) s).
Hypothesis R_rendered : forall s f html, R s (rendered f html s).
Hypothesis R_written :
  forall s f html, post (write_file (path_join X (dir_builds C) f) html) s (R s).
Hypothesis R_built :
  forall s f content,
    R s (asset_built s f (path_join3 X (dir_templates C) (dir_css C) f)
           (path_join3 X (dir_builds C) (dir_css C) f) content)
    /\ R s (asset_built s f (path_join3 X (dir_templates C) (dir_js C) f)
              (path_join3 X (dir_builds C) (dir_js C) f) content).

Lemma keeps_ret {A : Type} (a : A) : keeps R (ret a).
Proof. intros s. apply R_refl. Qed.

Lemma keeps_bind {A B : Type} (m : M A) (k : A -> M B) :
  keeps R m -> (forall a, keeps R (k a)) -> keeps R (bind m k).
Proof.
  intros Hm Hk s. apply post_bind with (R := R s); [apply Hm | trivial|].
  intros a s1 H1. eapply post_weaken; [apply Hk|].
  intros s' H'. eapply R_trans; eassumption.
Qed.

Lemma keeps_emit (e : event) : keeps R (emit e).
Proof. intros s. apply R_logged. Qed.

Lemma keeps_read_lines (path : string) : keeps R (read_lines path).
Proof.
  intros s. unfold post, read_lines. destruct (files s !! path);
    [apply R_logged | apply R_refl].
Qed.

Lemma keeps_compile_css (f : string) : keeps R (compile_css X C f).
Proof.
  intros s. unfold post.
  destruct (compile_css_outcome X C f s) as [-> | [[path ->] | [content ->]]];
    [apply R_refl | apply R_refl | apply R_built].
Qed.

Lemma keeps_compile_js (f : string) : keeps R (compile_js X C f).
Proof.
  intros s. unfold post.
  destruct (compile_js_outcome X C f s) as [-> | [[path ->] | [content ->]]];
    [apply R_refl | apply R_refl | apply R_built].
Qed.

Lemma keeps_compile_item (c : collection) (f : string) :
  keeps R (compile_item X c f).
Proof.
  intros s. unfold post, compile_item. destruct (built_html s !! f).
  - apply R_refl.
  - apply (keeps_bind (read_lines f)); [apply keeps_read_lines|].
    intros [|first rest]; [intros s'; apply R_refl|].
    unfold fill_templates. apply keeps_bind; [apply keeps_emit|].
    intros _. apply keeps_ret.
Qed.

Lemma keeps_parse_variable (fuel : nat) :
  forall line, keeps R (parse_variable X C fuel line).
Proof.
  induction fuel as [|fuel IH]; intros line s; unfold post; simpl;
    destruct (VARIABLE X line) as [[g0 g1]|]; try exact I; try apply R_refl.
  destruct (force_language C (redirect (assign_dict s) g1)) as [language name].
  destruct (language !! name).
  - apply IH.
  - refine (keeps_bind _ _ _ _ s); [apply keeps_emit|].
    intros _. destruct (lang_en C !! name); [apply IH|].
    apply keeps_bind; [apply keeps_emit | intros _; apply keeps_ret].
Qed.

Lemma keeps_embeds (fuel : nat) (line : string) : keeps R (embeds X C fuel line).
Proof.
  unfold embeds. apply keeps_bind.
  - destruct (IMAGE X line) as [[g1 g2]|]; [|apply keeps_ret].
    apply keeps_bind; [apply keeps_parse_variable | intros; apply keeps_ret].
  - intros line1. apply keeps_bind.
    + destruct (PUBLICATION X line1); [apply keeps_compile_item | apply keeps_ret].
    + intros line2.
      destruct (ART X line2); [apply keeps_compile_item | apply keeps_ret].
Qed.

Lemma keeps_process_line (self_compile : string -> M string) (fuel : nat)
    (line html : string) :
  (forall f, keeps R (self_compile f)) ->
  keeps R (process_line X C self_compile fuel line html).
Proof.
  intros Hself. unfold process_line.
  destruct (negb (Py.contains "<!--" line) && negb (Py.contains "{{" line));
    [apply keeps_ret|].
  destruct (ASSIGN X line) as [[lhs rhs]|].
  { apply keeps_bind; [|intros; apply keeps_ret].
    intros s. apply (R_assign s lhs rhs). }
  destruct (INCLUDE X line) as [g|].
  { apply keeps_bind; [apply keeps_emit|]. intros _.
    apply keeps_bind; [apply Hself | intros; apply keeps_ret]. }
  destruct (CSS X line) as [g|].
  { apply keeps_bind; [apply keeps_emit|]. intros _.
    apply keeps_bind; [apply keeps_compile_css | intros; apply keeps_ret]. }
  destruct (JS X line) as [g|].
  { apply keeps_bind; [apply keeps_emit|]. intros _.
    apply keeps_bind; [apply keeps_compile_js | intros; apply keeps_ret]. }
  apply keeps_bind; [apply keeps_embeds|]. intros line1.
  apply keeps_bind; [apply keeps_parse_variable | intros; apply keeps_ret].
Qed.

Lemma keeps_process_lines (self_compile : string -> M string) (fuel : nat)
    (lines : list string) :
  (forall f, keeps R (self_compile f)) ->
  forall html, keeps R (process_lines X C self_compile fuel lines html).
Proof.
  intros Hself. induction lines as [|line rest IH]; intros html; simpl.
  - apply keeps_ret.
  - apply keeps_bind; [now apply keeps_process_line | apply IH].
Qed.

Lemma keeps_compile (fuel : nat) :
  forall f w, keeps R (compile X C fuel f w).
Proof.
  induction fuel as [|fuel IH]; intros f w s; unfold post; simpl; [exact I|].
  destruct (built_html s !! f).
  - apply R_logged.
  - refine (keeps_bind _ _ _ _ s); [apply keeps_read_lines|]. intros lines.
    apply keeps_bind.
    { apply keeps_process_lines. intros g. apply IH. }
    intros html. apply keeps_bind.
    { destruct w; [|apply keeps_ret]. apply keeps_bind.
      - destruct (minimize_html C); [|apply keeps_ret].
        apply keeps_bind; [|intros; apply keeps_ret].
        destruct (debug_html C); [apply keeps_emit | apply keeps_ret].
      - intros html0. apply keeps_bind; [|intros; apply keeps_ret].
        intros s'. apply R_written. }
    intros html1. apply keeps_bind; [|intros; apply keeps_ret].
    intros s'. apply (R_rendered s' f html1).
Qed.

End Keeps.

Lemma is_Some_insert (files : gmap string string) (path other content : string) :
  is_Some (files !! other) -> is_Some (<[path := content]> files !! other).
Proof.
  intros H. destruct (decide (path = other)) as [->|Hne].
  - rewrite lookup_insert_eq. now eexists.
  - now rewrite lookup_insert_ne.
Qed.

(** X9: [compile] writes to output paths only and removes nothing.
    Whatever it compiles and however it ends, every file whose path is not an
    output path of [compile], [compile_css] or [compile_js] has afterwards
    the contents it had before, and every file that was there is still
    there.  (A file at an output path may be overwritten; this includes a
    source whose own path is an output path.) *)
Theorem compile_leaves_sources (X : Externals) (C : Config) (fuel : nat)
    (f : string) (w : bool) (s : state) :
  post (compile X C fuel f w) s
    (fun s' => (forall path, ~ output_path X C path ->
                  files s' !! path = files s !! path)
               /\ dom (files s) ⊆ dom (files s')).
Proof.
  apply (keeps_compile X C
           (fun s s' => (forall path, ~ output_path X C path ->
                           files s' !! path = files s !! path)
                        /\ dom (files s) ⊆ dom (files s'))).
  - intros s0. split; reflexivity.
  - intros s1 s2 s3 [H12 D12] [H23 D23]. split.
    + intros path Hp. now rewrite H23, H12.
    + set_solver.
  - intros s0 evs. split; reflexivity.
  - intros s0 lhs rhs. split; reflexivity.
  - intros s0 g html. split; reflexivity.
  - intros s0 g html. unfold post. simpl. split.
    + intros path Hp. apply lookup_insert_ne.
      intros <-. apply Hp. left. now eexists.
    + rewrite dom_insert_L. set_solver.
  - intros s0 g content. split; (split; simpl;
      [intros path Hp; apply lookup_insert_ne; intros <-; apply Hp; right
      |rewrite dom_insert_L; set_solver]); [left | right]; now eexists.
Qed.

(** X10: an alias is never removed.  Whatever [compile] does and however it
    ends, every name that had a target in the assignment table before still
    has one after. *)
Theorem compile_keeps_aliases (X : Externals) (C : Config) (fuel : nat)
    (f : string) (w : bool) (s : state) :
  post (compile X C fuel f w) s
    (fun s' => dom (assign_dict s) ⊆ dom (assign_dict s')).
Proof.
  apply (keeps_compile X C
           (fun s s' => dom (assign_dict s) ⊆ dom (assign_dict s'))).
  - reflexivity.
  - intros s1 s2 s3 H12 H23. set_solver.
  - reflexivity.
  - intros s0 lhs rhs. simpl. rewrite dom_insert_L. set_solver.
  - reflexivity.
  - intros s0 g html. unfold post. simpl. reflexivity.
  - intros s0 g content. split; reflexivity.
Qed.

(** X11: every asset marked as built has its output on disk.  If each name
    in [built_dict] has an output file when [compile] starts, then so it is
    when [compile] ends, however it ends. *)
Theorem compile_keeps_built_on_disk (X : Externals) (C : Config) (fuel : nat)
    (f : string) (w : bool) (s : state) :
  built_on_disk X C s ->
  post (compile X C fuel f w) s (built_on_disk X C).
Proof.
  intros Hs. eapply post_weaken.
  - apply (keeps_compile X C
             (fun s s' => built_on_disk X C s -> built_on_disk X C s')).
    + auto.
    + auto.
    + auto.
    + auto.
    + auto.
    + intros s0 g html. unfold post. simpl. intros H name Hin. simpl in *.
      destruct (H name Hin) as [Hc | Hj]; [left | right];
        now apply is_Some_insert.
    + intros s0 g content.
      split; intros H name Hin; simpl in *;
        apply elem_of_union in Hin as [Hin | Hin].
      * apply elem_of_singleton in Hin as ->. left.
        rewrite lookup_insert_eq. now eexists.
      * destruct (H name Hin) as [Hc | Hj]; [left | right];
          now apply is_Some_insert.
      * apply elem_of_singleton in Hin as ->. right.
        rewrite lookup_insert_eq. now eexists.
      * destruct (H name Hin) as [Hc | Hj]; [left | right];
          now apply is_Some_insert.
  - intros s' H. now apply H.
Qed.

Lemma compile_keeps_built_on_disk_witness :
  post (compile Sample.externals Site.cfg 2 "index.html" false)
    (init Site.page_files) (built_on_disk Sample.externals Site.cfg).
Proof.
  apply (compile_keeps_built_on_disk Sample.externals Site.cfg 2 "index.html"
           false (init Site.page_files)).
  intros name Hin. simpl in Hin. now apply not_elem_of_empty in Hin.
Defined.

(** ** The text handed to Markdown *)

Lemma rstrip_snoc (c : ascii) (s : string) :
  Py.rstrip c (s +:+ String c EmptyString) = Py.rstrip c s.
Proof.
  induction s as [|a s IH]; simpl.
  - now rewrite Ascii.eqb_refl.
  - now rewrite IH.
Qed.

Lemma strip_wrapped (c : ascii) (s : string) :
  Py.strip c (String c (s +:+ String c EmptyString)) = Py.strip c s.
Proof.
  unfold Py.strip. cbn [Py.lstrip]. rewrite Ascii.eqb_refl.
  induction s as [|a s IH].
  - simpl. now rewrite Ascii.eqb_refl.
  - change (String a s +:+ String c EmptyString)
      with (String a (s +:+ String c EmptyString)).
    cbn [Py.lstrip]. destruct (Ascii.eqb a c); [exact IH|].
    apply (rstrip_snoc c (String a s)).
Qed.

(** X12: double quotes around a catalog text do not count: the text in
    quotes is rendered as the text without them. *)
Theorem parse_markdown_ignores_quotes (X : Externals) (text : string) :
  parse_markdown X (String Py.dquote (text +:+ String Py.dquote EmptyString))
  = parse_markdown X text.
Proof.
  unfold parse_markdown, markdown_input. now rewrite strip_wrapped.
Qed.

Section LineBreaks.

Let R (s : string) : string := Py.replace_from backslash_pair "<br />" s 0.

Lemma break_head (s : string) :
  (forall s', s <> String Py.backslash s') ->
  forall r, R s <> String Py.backslash r.
Proof.
  intros Hs r. destruct s as [|c s]; [discriminate|].
  unfold R. cbn [Py.replace_from backslash_pair Py.startswith].
  destruct (Ascii.eqb Py.backslash c) eqn:E.
  - apply Ascii.eqb_eq in E. subst c. now destruct (Hs s).
  - intros H. inversion H; subst. now rewrite Ascii.eqb_refl in E.
Qed.

Lemma contains_after_break (t : string) :
  Py.contains backslash_pair ("<br />" +:+ t) = Py.contains backslash_pair t.
Proof. reflexivity. Qed.

Lemma no_pair_left (n : nat) :
  forall s, String.length s <= n -> Py.contains backslash_pair (R s) = false.
Proof.
  induction n as [|n IH]; intros s Hlen.
  - destruct s; [reflexivity | simpl in Hlen; lia].
  - destruct s as [|c s]; [reflexivity|].
    unfold R. cbn [Py.replace_from].
    destruct (Py.startswith backslash_pair (String c s)) eqn:E.
    + cbn [backslash_pair Py.startswith] in E.
      destruct (Ascii.eqb Py.backslash c); [|discriminate].
      destruct s as [|d s]; [discriminate|].
      cbn [backslash_pair String.length Nat.sub Py.replace_from].
      rewrite contains_after_break. apply IH. simpl in Hlen. lia.
    + fold (R s). cbn [Py.contains].
      assert (Hrest : Py.contains backslash_pair (R s) = false)
        by (apply IH; simpl in Hlen; lia).
      destruct (Py.startswith backslash_pair (String c (R s))) eqn:E';
        [|now destruct (R s)].
      exfalso. cbn [backslash_pair Py.startswith] in E, E'.
      destruct (Ascii.eqb Py.backslash c); [|discriminate].
      destruct (R s) as [|d r] eqn:Er; [discriminate|].
      destruct (Ascii.eqb Py.backslash d) eqn:Ed; [|discriminate].
      apply Ascii.eqb_eq in Ed. subst d.
      apply (break_head s) with (r := r); [|exact Er].
      intros s' ->. now rewrite Ascii.eqb_refl in E.
Qed.

(** X13: no pair of backslashes reaches the Markdown renderer: every pair is
    turned into a line break first, and the replacement leaves none
    behind. *)
Theorem markdown_input_without_pairs (text : string) :
  Py.contains backslash_pair (markdown_input text) = false.
Proof.
  unfold markdown_input, Py.replace. fold backslash_pair.
  apply (no_pair_left (String.length (Py.strip Py.dquote text))). lia.
Qed.

End LineBreaks.

(** ** Lines without directive or reference *)

Section PlainLines.

Variable X : Externals.
Variable C : Config.

(** A line that is copied: it has no marker, or it has one but is neither a
    directive nor holds a reference. *)
Lemma process_line_copied (self_compile : string -> M string) (fuel : nat)
    (line html : string) (s : state) :
  copied_line X line ->
  process_line X C self_compile fuel line html s = Ok (html +:+ line) s.
Proof.
  intros [Hno | [Hplain Hnone]].
  - unfold process_line.
    destruct (Py.contains "<!--" line) eqn:E1; [destruct Hno; now left|].
    destruct (Py.contains "{{" line) eqn:E2; [destruct Hno; now right|].
    reflexivity.
  - rewrite process_line_plain by exact Hplain.
    now rewrite parse_variable_no_reference.
Qed.


(** ** The conditions of an embed *)

Lemma split_nonempty (c : ascii) (s : string) : Py.split c s <> [].
Proof.
  destruct s as [|a s]; simpl; [discriminate|].
  destruct (Ascii.eqb a c); [discriminate|]. now destruct (Py.split c s).
Qed.

Lemma join_with_split (c : ascii) (s : string) : join_with c (Py.split c s) = s.
Proof.
  induction s as [|a s IH]; [reflexivity|]. simpl.
  destruct (Ascii.eqb a c) eqn:E.
  - apply Ascii.eqb_eq in E. subst a.
    pose proof (split_nonempty c s) as Hne.
    destruct (Py.split c s) as [|h t]; [congruence|].
    rewrite <- IH. reflexivity.
  - pose proof (split_nonempty c s) as Hne.
    destruct (Py.split c s) as [|h t]; [congruence|].
    destruct t as [|h' t].
    + simpl in *. now rewrite IH.
    + cbn [join_with] in *. rewrite <- IH. reflexivity.
Qed.

Lemma split_without_separator (c : ascii) (s : string) :
  Forall (fun piece => Py.count c piece = 0) (Py.split c s).
Proof.
  induction s as [|a s IH]; simpl.
  - now constructor.
  - destruct (Ascii.eqb a c) eqn:E.
    + now constructor.
    + destruct (Py.split c s) as [|h t].
      * constructor; [simpl; now rewrite E | constructor].
      * inversion IH; subst. constructor; [simpl; now rewrite E | assumption].
Qed.

(** An embed of a sub-file with at least one line. *)
Lemma compile_item_fills (c : collection) (f content first : string)
    (rest : list string) (s : state) :
  built_html s !! f = None ->
  files s !! f = Some content ->
  Py.readlines content = first :: rest ->
  compile_item X c f s
  = Ok (match c with
        | Papers => papers_fill X (Py.split ","%char (Py.slice 5 5 first)) rest
        | Arts => arts_fill X (Py.split ","%char (Py.slice 5 5 first)) rest
        end)
       (logged s [EvRead f;
                  EvFill c (Py.split ","%char (Py.slice 5 5 first)) rest]).
Proof.
  intros Hc Hf Hl.
  unfold compile_item. rewrite Hc. unfold bind at 1. unfold read_lines.
  rewrite Hf. unfold bind at 1. unfold emit, ret at 1. rewrite Hl.
  unfold fill_templates, bind, emit, ret. now rewrite logged_logged.
Qed.

End PlainLines.


(** ** Sources that are missing, empty or free of directives *)

Section Sources.

Variable X : Externals.
Variable C : Config.

Lemma process_lines_copied_prefix (self_compile : string -> M string)
    (fuel : nat) (pre lines : list string) :
  Forall (copied_line X) pre ->
  forall html s,
    process_lines X C self_compile fuel (pre ++ lines) html s
    = process_lines X C self_compile fuel lines (html +:+ Py.join pre) s.
Proof.
  induction 1 as [|line pre Hline _ IH]; intros html s.
  - simpl. now rewrite append_empty_r.
  - cbn [app process_lines]. unfold bind at 1.
    rewrite (process_line_copied X C) by exact Hline.
    rewrite IH. simpl. now rewrite append_assoc.
Qed.

(** [compile] of a file that is not cached and whose source can be read:
    the loop over the lines, then the end of the function. *)
Lemma compile_uncached (fuel : nat) (f : string) (w : bool) (s : state)
    (content : string) :
  built_html s !! f = None ->
  files s !! path_join X (dir_templates C) f = Some content ->
  compile X C (S fuel) f w s
  = (let* html :=
       process_lines X C (fun g => compile X C fuel g false) fuel
         (Py.readlines content) EmptyString in
     let* html :=
       if w then
         let* html :=
           if minimize_html C then
             (if debug_html C then emit (EvPrint html) else ret tt) ;;
             ret (htmlminify X html)
           else ret html in
         write_file (path_join X (dir_builds C) f) html ;;
         ret html
       else ret html in
     set_html f html ;;
     ret html) (logged s [EvRead (path_join X (dir_templates C) f)]).
Proof.
  intros Hc Hf. simpl. rewrite Hc. unfold bind at 1. unfold read_lines.
  now rewrite Hf.
Qed.

(** X14: an embed of a sub-file that is not in [built_html].  A sub-file that
    does not exist raises [FileNotFoundError]; an empty one is read and then
    raises [IndexError], because its first line is asked for; otherwise the
    file is read once and [fill_templates] is called once, with the lines
    after the first as template and with [lines[0][5:-5].split(',')] as
    conditions.  These are the pieces between the commas of the header text,
    as they stand, blanks included: there is always at least one, none holds
    a comma, and joined by commas they give the header text back. *)
Theorem embed_of_uncached_file (c : collection) (f : string) (s : state) :
  built_html s !! f = None ->
  (files s !! f = None -> compile_item X c f s = Raise (FileNotFoundError f) s)
  /\ (files s !! f = Some EmptyString ->
      compile_item X c f s = Raise IndexError (logged s [EvRead f]))
  /\ (forall content first rest,
        files s !! f = Some content ->
        Py.readlines content = first :: rest ->
        compile_item X c f s
        = Ok (match c with
              | Papers =>
                  papers_fill X (Py.split ","%char (Py.slice 5 5 first)) rest
              | Arts =>
                  arts_fill X (Py.split ","%char (Py.slice 5 5 first)) rest
              end)
             (logged s [EvRead f;
                        EvFill c (Py.split ","%char (Py.slice 5 5 first)) rest])
        /\ Py.split ","%char (Py.slice 5 5 first) <> []
        /\ Forall (fun piece => Py.count ","%char piece = 0)
                  (Py.split ","%char (Py.slice 5 5 first))
        /\ join_with ","%char (Py.split ","%char (Py.slice 5 5 first))
           = Py.slice 5 5 first).
Proof.
  intros Hc. split; [|split].
  - intros Hf. unfold compile_item. rewrite Hc. unfold bind, read_lines.
    now rewrite Hf.
  - now apply compile_item_empty.
  - intros content first rest Hf Hl. split; [|split; [|split]].
    + now apply compile_item_fills with (content := content).
    + apply split_nonempty.
    + apply split_without_separator.
    + apply join_with_split.
Qed.

(** X15: a file that does not exist aborts the compilation.  [compile] of a
    file that is not cached and has no source raises [FileNotFoundError] and
    leaves the compiler untouched.  When a page reaches, after lines that are
    copied, an include of such a file, the same error is raised at that
    line: the lines after it are not processed, nothing is written and the
    page is not cached. *)
Theorem missing_file_aborts (fuel : nat) (f : string) (w : bool) (s : state) :
  built_html s !! f = None ->
  (files s !! path_join X (dir_templates C) f = None ->
   compile X C (S fuel) f w s
   = Raise (FileNotFoundError (path_join X (dir_templates C) f)) s)
  /\ (forall (content : string) (pre : list string) (line : string)
             (rest : list string) (g : string),
        files s !! path_join X (dir_templates C) f = Some content ->
        Py.readlines content = (pre ++ line :: rest)%list ->
        Forall (copied_line X) pre ->
        has_marker line -> ASSIGN X line = None -> INCLUDE X line = Some g ->
        built_html s !! g = None ->
        files s !! path_join X (dir_templates C) g = None ->
        compile X C (S (S fuel)) f w s
        = Raise (FileNotFoundError (path_join X (dir_templates C) g))
                (logged s [EvRead (path_join X (dir_templates C) f);
                           EvLog Info ("Including HTML: " +:+ g)])).
Proof.
  intros Hc. split.
  - now apply compile_missing_source_at.
  - intros content pre line rest g Hf Hl Hpre Hm Ha Hi Hcg Hfg.
    rewrite (compile_uncached (S fuel) f w s content Hc Hf), Hl.
    unfold bind at 1. rewrite process_lines_copied_prefix by exact Hpre.
    rewrite (include_missing_at_line X C) with (g := g) by assumption.
    now rewrite logged_logged.
Qed.

(** X16: what [compile_css] and [compile_js] do with a name that is not in
    [built_dict].  Without a source they raise [FileNotFoundError] and leave
    the compiler untouched, the name is not marked and the next request
    tries again.  With a source they read it once and write the output: the
    source minified when the switch is on and the name has no [.min.] in it,
    the very contents of the source otherwise; the name enters [built_dict]
    and nothing else changes. *)
Theorem asset_from_source (f : string) (s : state) :
  f ∉ built_dict s ->
  (files s !! path_join3 X (dir_templates C) (dir_css C) f = None ->
   compile_css X C f s
   = Raise (FileNotFoundError (path_join3 X (dir_templates C) (dir_css C) f)) s)
  /\ (files s !! path_join3 X (dir_templates C) (dir_js C) f = None ->
      compile_js X C f s
      = Raise (FileNotFoundError (path_join3 X (dir_templates C) (dir_js C) f)) s)
  /\ (forall content,
        files s !! path_join3 X (dir_templates C) (dir_css C) f = Some content ->
        compile_css X C f s
        = Ok true (asset_built s f
                     (path_join3 X (dir_templates C) (dir_css C) f)
                     (path_join3 X (dir_builds C) (dir_css C) f)
                     (asset_output (minimize_css C) (csscompress X) f content)))
  /\ (forall content,
        files s !! path_join3 X (dir_templates C) (dir_js C) f = Some content ->
        compile_js X C f s
        = Ok true (asset_built s f
                     (path_join3 X (dir_templates C) (dir_js C) f)
                     (path_join3 X (dir_builds C) (dir_js C) f)
                     (asset_output (minimize_js C) (jsmin X) f content)))
  /\ (forall content, Py.contains ".min." f = true ->
        asset_output (minimize_css C) (csscompress X) f content = content
        /\ asset_output (minimize_js C) (jsmin X) f content = content).
Proof.
  intros Hout.
  destruct (asset_missing X C f s Hout) as [Hcss Hjs].
  split; [exact Hcss|]. split; [exact Hjs|].
  split; [|split]; intros content.
  - apply (asset_present X C f content s Hout).
  - apply (asset_present X C f content s Hout).
  - apply (asset_present X C f content s Hout).
Qed.


End Sources.

Lemma embed_of_uncached_file_witness :
  compile_item Sample.externals Papers "templates/none.html" (init Pages.files)
  = Raise (FileNotFoundError "templates/none.html") (init Pages.files)
  /\ compile_item Sample.externals Papers "templates/empty.html" (init Pages.files)
     = Raise IndexError (logged (init Pages.files) [EvRead "templates/empty.html"])
  /\ compile_item Sample.externals Papers "templates/pubs.html"
       (init Pages.files)
     = Ok (papers_fill Sample.externals ["a"; " b"] ["item" +:+ Pages.nl])
          (logged (init Pages.files)
             [EvRead "templates/pubs.html";
              EvFill Papers ["a"; " b"] ["item" +:+ Pages.nl]]).
Proof.
  split; [|split].
  - apply (proj1 (embed_of_uncached_file Sample.externals Papers
                    "templates/none.html" (init Pages.files) eq_refl)).
    vm_compute; reflexivity.
  - apply (proj1 (proj2 (embed_of_uncached_file Sample.externals Papers
                           "templates/empty.html" (init Pages.files) eq_refl))).
    vm_compute; reflexivity.
  - apply (proj1 (proj2 (proj2 (embed_of_uncached_file Sample.externals Papers
                                  "templates/pubs.html" (init Pages.files)
                                  eq_refl))
                    ("<!--[a, b]-->" +:+ Pages.nl +:+ "item" +:+ Pages.nl)
                    ("<!--[a, b]-->" +:+ Pages.nl) ["item" +:+ Pages.nl]
                    ltac:(vm_compute; reflexivity)
                    ltac:(vm_compute; reflexivity))).
Defined.

Lemma missing_file_aborts_witness :
  compile Sample.externals Site.cfg 1 "nothere.html" false (init Pages.files)
  = Raise (FileNotFoundError "templates/nothere.html") (init Pages.files)
  /\ compile Sample.externals Site.cfg 2 "broken.html" true (init Pages.files)
     = Raise (FileNotFoundError "templates/nothere.html")
             (logged (init Pages.files)
                [EvRead "templates/broken.html";
                 EvLog Info "Including HTML: nothere.html"]).
Proof.
  split.
  - apply (proj1 (missing_file_aborts Sample.externals Site.cfg 0 "nothere.html"
                    false (init Pages.files) eq_refl)).
    vm_compute; reflexivity.
  - apply (proj2 (missing_file_aborts Sample.externals Site.cfg 0 "broken.html"
                    true (init Pages.files) eq_refl)
             Pages.broken ["<h1>Hi</h1>" +:+ Pages.nl] Pages.missing_line ["end"]
             "nothere.html").
    + vm_compute; reflexivity.
    + vm_compute; reflexivity.
    + constructor; [|constructor].
      left. intros [H | H]; vm_compute in H; discriminate.
    + left; reflexivity.
    + reflexivity.
    + reflexivity.
    + vm_compute; reflexivity.
    + vm_compute; reflexivity.
Defined.

Lemma asset_from_source_witness :
  compile_css Sample.externals Site.cfg "print.css" (init Pages.files)
  = Raise (FileNotFoundError "templates/css/print.css") (init Pages.files)
  /\ compile_css Sample.externals Site.cfg "site.css" (init Pages.files)
     = Ok true (asset_built (init Pages.files) "site.css"
                  "templates/css/site.css" "builds/css/site.css" "body{}")
  /\ compile_js Sample.externals Site.cfg "lib.min.js" (init Pages.files)
     = Ok true (asset_built (init Pages.files) "lib.min.js"
                  "templates/js/lib.min.js" "builds/js/lib.min.js" "f ( )").
Proof.
  split; [|split].
  - apply (proj1 (asset_from_source Sample.externals Site.cfg "print.css"
                    (init Pages.files) (not_elem_of_empty _))).
    vm_compute; reflexivity.
  - apply (proj1 (proj2 (proj2 (asset_from_source Sample.externals Site.cfg
                                  "site.css" (init Pages.files)
                                  (not_elem_of_empty _)))) "body{}").
    vm_compute; reflexivity.
  - apply (proj1 (proj2 (proj2 (proj2 (asset_from_source Sample.externals
                                         Site.cfg "lib.min.js" (init Pages.files)
                                         (not_elem_of_empty _))))) "f ( )").
    vm_compute; reflexivity.
Defined.


(** ** Includes and aliases *)

Section Composition.

Variable X : Externals.
Variable C : Config.



Lemma force_language_cn (base : string) :
  force_language C (base +:+ "_cn") = (lang_cn C, base).
Proof.
  unfold force_language.
  pose proof (last_n_append base "_cn") as H1.
  pose proof (drop_last_append base "_cn") as H2.
  cbn [String.length] in H1, H2. now rewrite H1, H2.
Qed.

(** X19: the alias is looked up before the suffix is cut, never after.  A
    reference [{{base_cn}}] whose full name is not an alias is resolved as
    [base] in [Lang.cn], even when [base] itself is an alias of another
    name. *)
Theorem suffix_not_redirected (fuel : nat) (line : string) (s : state)
    (g0 base value : string) :
  VARIABLE X line = Some (g0, base +:+ "_cn") ->
  assign_dict s !! (base +:+ "_cn") = None ->
  lang_cn C !! base = Some value ->
  parse_variable X C (S fuel) line s
  = parse_variable X C fuel (Py.replace g0 (parse_markdown X value) line) s.
Proof.
  intros Hv Ha Hl.
  apply (parse_variable_found X C fuel line s g0 (base +:+ "_cn") base value
           (lang_cn C) Hv); [|exact Hl].
  unfold redirect. rewrite Ha. apply force_language_cn.
Qed.

End Composition.


Lemma suffix_not_redirected_witness :
  parse_variable Sample.externals (Sample.config ∅ ∅ Sample.cat_a) 1 "{{a_cn}}"
    (with_assign {[ "a" := "b" ]} (init ∅))
  = parse_variable Sample.externals (Sample.config ∅ ∅ Sample.cat_a) 0
      (Py.replace "{{a_cn}}" (parse_markdown Sample.externals "X") "{{a_cn}}")
      (with_assign {[ "a" := "b" ]} (init ∅)).
Proof.
  apply (suffix_not_redirected Sample.externals (Sample.config ∅ ∅ Sample.cat_a)
           0 "{{a_cn}}" (with_assign {[ "a" := "b" ]} (init ∅)) "{{a_cn}}" "a" "X");
    vm_compute; reflexivity.
Defined.
